(** * ai_agent.py: the plan gates and the plan executor

    A shallow embedding of [src/ai_agent.py]: the helper
    [get_domain_from_url], the planner wrapper [ask_openai_for_plan], the
    selector resolver [find_element], the executor [execute_plan] and the
    interactive routine [main].

    Python values that come out of [json.loads] are modelled by the type
    [json]; Python strings by [string], a character standing for the code
    point of the same number (0..255).  The program's effects -- the
    browser session, the mutable [ALLOWED_DOMAINS] list, standard input
    and everything printed -- are threaded through an explicit [state];
    exceptions are results [Raise e], and stand for the exceptions that
    [except Exception] catches (an interrupt from the keyboard is not
    modelled).  The libraries the program calls (selenium, openai, json,
    urllib, validators, float and time.sleep on computed values) are the
    fields of an environment record [Env]. *)

From Stdlib Require Import String Ascii List ZArith Bool Arith Lia Floats.
Import ListNotations.
Local Open Scope string_scope.
Local Open Scope list_scope.
Set Warnings "-register-all".

(** ** Python string operations *)

Module PyStr.

(** [str.isspace] on one character: TAB..CR, FS..US, space, NEL, NBSP. *)
Definition is_space (c : ascii) : bool :=
  let n := nat_of_ascii c in
  (((9 <=? n) && (n <=? 13)) || ((28 <=? n) && (n <=? 31))
   || (n =? 32) || (n =? 133) || (n =? 160))%nat.

(** The line boundaries of [str.splitlines]: LF, VT, FF, CR, FS, GS, RS,
    NEL (CR LF counts as one boundary). *)
Definition is_linebreak (c : ascii) : bool :=
  let n := nat_of_ascii c in
  (((10 <=? n) && (n <=? 13)) || ((28 <=? n) && (n <=? 30)) || (n =? 133))%nat.

Definition LF : ascii := ascii_of_nat 10.
Definition CR : ascii := ascii_of_nat 13.
Definition newline : string := String LF "".

Fixpoint lstrip (s : string) : string :=
  match s with
  | "" => ""
  | String c r => if is_space c then lstrip r else s
  end.

Fixpoint rstrip (s : string) : string :=
  match s with
  | "" => ""
  | String c r =>
      match rstrip r with
      | "" => if is_space c then "" else String c ""
      | r' => String c r'
      end
  end.

(** [s.strip()] *)
Definition strip (s : string) : string := rstrip (lstrip s).

(** [str.lower] on one character: A..Z and the capital letters of the
    Latin-1 supplement (all of 0xC0..0xDE but the multiplication sign). *)
Definition lower_char (c : ascii) : ascii :=
  let n := nat_of_ascii c in
  if (((65 <=? n) && (n <=? 90))
      || ((192 <=? n) && (n <=? 222) && negb (n =? 215)))%nat
  then ascii_of_nat (n + 32) else c.

(** [s.lower()] *)
Fixpoint lower (s : string) : string :=
  match s with
  | "" => ""
  | String c r => String (lower_char c) (lower r)
  end.

(** [s.startswith(p)] *)
Definition startswith (s p : string) : bool := prefix p s.

(** [s.replace(old, new)] for a non-empty [old]: every occurrence, scanned
    from the left without overlap.  [skip] counts the characters of the
    occurrence just replaced that are still to be dropped. *)
Fixpoint replace_from (old new s : string) (skip : nat) : string :=
  match s with
  | "" => ""
  | String c r =>
      match skip with
      | S k => replace_from old new r k
      | O =>
          if prefix old s
          then new ++ replace_from old new r (String.length old - 1)
          else String c (replace_from old new r 0)
      end
  end.

Fixpoint intersperse (new s : string) : string :=
  match s with
  | "" => ""
  | String c r => String c (new ++ intersperse new r)
  end.

Definition replace (s old new : string) : string :=
  match old with
  | "" => new ++ intersperse new s
  | _ => replace_from old new s 0
  end.

(** [s.splitlines()].  [after_cr] tells that the previous character was a
    CR, so that a LF now belongs to the same boundary. *)
Fixpoint splitlines_from (after_cr : bool) (s : string) : list string :=
  match s with
  | "" => []
  | String c r =>
      if after_cr && Ascii.eqb c LF then splitlines_from false r
      else if is_linebreak c then "" :: splitlines_from (Ascii.eqb c CR) r
      else match splitlines_from false r with
           | [] => [String c ""]
           | l :: ls => String c l :: ls
           end
  end.

Definition splitlines (s : string) : list string := splitlines_from false s.

(** [l[1:-1]] *)
Definition slice_1_m1 {A} (l : list A) : list A := removelast (tl l).

(** [sep.join(l)] *)
Definition join (sep : string) (l : list string) : string := String.concat sep l.

(** [x in l] for a list of strings *)
Definition mem (x : string) (l : list string) : bool :=
  existsb (String.eqb x) l.

End PyStr.

(** ** Values decoded from JSON *)

(** What [json.loads] can return: [None], [bool], [int], [float], [str],
    [list], and [dict] with string keys (an association list read at the
    first binding of a key). *)
Inductive json : Type :=
| JNull
| JBool (b : bool)
| JInt (z : Z)
| JFloat (f : float)
| JStr (s : string)
| JArr (l : list json)
| JObj (m : list (string * json)).

(** Python truthiness, as in [if value:]. *)
Definition truthy (v : json) : bool :=
  match v with
  | JNull => false
  | JBool b => b
  | JInt z => negb (Z.eqb z 0)
  | JFloat f => negb (PrimFloat.eqb f 0%float)
  | JStr s => negb (String.eqb s "")
  | JArr l => match l with [] => false | _ => true end
  | JObj m => match m with [] => false | _ => true end
  end.

(** [v == "lit"] for a string literal. *)
Definition eq_str (v : json) (lit : string) : bool :=
  match v with
  | JStr s => String.eqb s lit
  | _ => false
  end.

Fixpoint assoc (k : string) (m : list (string * json)) : option json :=
  match m with
  | [] => None
  | (k', v) :: m' => if String.eqb k k' then Some v else assoc k m'
  end.

(** ** Exceptions and results *)

(** An exception: its class name and its arguments. *)
Inductive exn : Type := Exn (cls : string) (args : list json).

Inductive res (A : Type) : Type :=
| Ok (a : A)
| Raise (e : exn).
Arguments Ok {A} a.
Arguments Raise {A} e.

(** [d.get(k, default)]; anything but a dict has no [get]. *)
Definition py_get (step : json) (k : string) (default : json) : res json :=
  match step with
  | JObj m => Ok (match assoc k m with Some v => v | None => default end)
  | _ => Raise (Exn "AttributeError" [JStr "get"])
  end.

(** The items a [for] loop sees: the elements of a list, the characters
    of a string, the keys of a dict; other values are not iterable. *)
Definition py_iter (v : json) : res (list json) :=
  match v with
  | JArr l => Ok l
  | JStr s => Ok (map (fun c => JStr (String c "")) (list_ascii_of_string s))
  | JObj m => Ok (map (fun kv => JStr (fst kv)) m)
  | _ => Raise (Exn "TypeError" [JStr "object is not iterable"])
  end.

Definition res_bind {A B} (r : res A) (k : A -> res B) : res B :=
  match r with
  | Ok a => k a
  | Raise e => Raise e
  end.

(** ** The outside world *)

(** selenium's [By] locators used by [find_element]. *)
Inductive By : Type := CSS_SELECTOR | XPATH | ID | NAME | LINK_TEXT.

(** The four [input(...)] prompts of [main]. *)
Inductive prompt : Type := AskStartUrl | AskAllowDomain | AskTask | AskApprove.

(** The lines the program prints, with the values formatted into them. *)
Inductive message : Type :=
| MBanner | MImportant | MInvalidUrl
| MTargetDomain (domain : string)
| MWarnNotAllowed (domain : string)
| MAddDomainHint | MDomainAdded | MPageLoaded | MNoTask | MRequesting
| MFailedPlan (e : exn)
| MPlanBegin | MPlan (plan : json) | MPlanEnd
| MDisallowed (nav_domain : string) | MRefusing
| MNotApproved | MExecuting
| MStep (i n : nat) (action by_ selector value : json)
| MUnknownAction (action : json)
| MStepError (i : nat) (e : exn)
| MSuccess | MFailed | MClosed.

(** Everything the program does that can be observed from outside, in the
    order it happens. *)
Inductive event (Element : Type) : Type :=
| EPrint (m : message)
| EInput (p : prompt) (line : option string)
| ESleep (secs : float)
| EChat (page_url page_text user_task : string)
| EChrome
| EMaximize
| EGet (url : json)
| EBodyText
| EPageSource
| EFind (by_ : By) (selector : json)
| EClick (elem : Element)
| EClear (elem : Element)
| ESendKeys (elem : Element) (value : json)
| ESubmit (elem : Element)
| EQuit.
Arguments EPrint {Element} m.
Arguments EInput {Element} p line.
Arguments ESleep {Element} secs.
Arguments EChat {Element} page_url page_text user_task.
Arguments EChrome {Element}.
Arguments EMaximize {Element}.
Arguments EGet {Element} url.
Arguments EBodyText {Element}.
Arguments EPageSource {Element}.
Arguments EFind {Element} by_ selector.
Arguments EClick {Element} elem.
Arguments EClear {Element} elem.
Arguments ESendKeys {Element} elem value.
Arguments ESubmit {Element} elem.
Arguments EQuit {Element}.

(** The libraries behind the program.  [World] is whatever the browser,
    the pages it shows and the planner service consist of; a call takes
    the world to a new one and returns or raises.  The pure library
    functions are [json.loads], the network location found by
    [urllib.parse.urlparse] (raising where [urlparse] or the [replace] on
    its result would), [validators.url] (its result read as a truth
    value), [float(...)], and the exception [time.sleep] raises on a
    computed duration.  [validators.url] rejects the empty string. *)
Record Env : Type := {
  World : Type;
  Element : Type;
  json_loads : string -> res json;
  urlparse_netloc : json -> res string;
  validators_url : json -> res bool;
  py_float : json -> res float;
  sleep_fails : float -> option exn;
  chat_completion : string -> string -> string -> World -> World * res string;
  chrome : World -> World * res unit;
  maximize_window : World -> World * res unit;
  driver_get : json -> World -> World * res unit;
  body_inner_text : World -> World * res (option string);
  page_source : World -> World * res string;
  driver_find_element : By -> json -> World -> World * res Element;
  element_click : Element -> World -> World * res unit;
  element_clear : Element -> World -> World * res unit;
  element_send_keys : Element -> json -> World -> World * res unit;
  element_submit : Element -> World -> World * res unit;
  driver_quit : World -> World * res unit;
  validators_url_empty : validators_url (JStr "") = Ok false
}.
Existing Class Env.

(** ** Configuration *)

Definition ALLOWED_DOMAINS : list string := ["example.com"; "localhost"].
Definition DEFAULT_WAIT : float := 2%float.

(** ** The program *)

Section Program.
Context {env : Env}.

(** The state the program runs in: the world, the current content of
    the module-level list [ALLOWED_DOMAINS], the lines still to be read
    from standard input, and the events so far. *)
Record state : Type := mkState {
  world : World env;
  allowed : list string;
  stdin : list string;
  trace : list (event (Element env))
}.

(** A computation returns or raises, and leaves a state either way. *)
Definition M (A : Type) : Type := state -> state * res A.

Definition ret {A} (a : A) : M A := fun st => (st, Ok a).
Definition raise {A} (e : exn) : M A := fun st => (st, Raise e).
Definition bind {A B} (c : M A) (k : A -> M B) : M B :=
  fun st =>
    match c st with
    | (st', Ok a) => k a st'
    | (st', Raise e) => (st', Raise e)
    end.

(** [try: c except Exception as e: h e] *)
Definition try_except {A} (c : M A) (h : exn -> M A) : M A :=
  fun st =>
    match c st with
    | (st', Ok a) => (st', Ok a)
    | (st', Raise e) => h e st'
    end.

Definition pure {A} (r : res A) : M A := fun st => (st, r).

Definition emit (e : event (Element env)) : M unit :=
  fun st => (mkState (world st) (allowed st) (stdin st) (trace st ++ [e]), Ok tt).

(** A library call that acts on the world. *)
Definition call {A} (e : event (Element env)) (op : World env -> World env * res A) : M A :=
  fun st =>
    let (w, r) := op (world st) in
    (mkState w (allowed st) (stdin st) (trace st ++ [e]), r).

Definition print (m : message) : M unit := emit (EPrint m).

(** [input(p)]: the next line of standard input, [EOFError] at its end. *)
Definition input (p : prompt) : M string :=
  fun st =>
    match stdin st with
    | [] => (mkState (world st) (allowed st) [] (trace st ++ [EInput p None]),
             Raise (Exn "EOFError" []))
    | l :: ls => (mkState (world st) (allowed st) ls (trace st ++ [EInput p (Some l)]),
                  Ok l)
    end.

(** [time.sleep] on a constant of the program. *)
Definition sleep_const (secs : float) : M unit := emit (ESleep secs).

(** [time.sleep] on a computed duration. *)
Definition sleep_value (secs : float) : M unit :=
  fun st =>
    (mkState (world st) (allowed st) (stdin st) (trace st ++ [ESleep secs]),
     match sleep_fails env secs with
     | Some e => Raise e
     | None => Ok tt
     end).

Definition get_allowed : M (list string) := fun st => (st, Ok (allowed st)).

(** [ALLOWED_DOMAINS.append(domain)] *)
Definition append_allowed (domain : string) : M unit :=
  fun st => (mkState (world st) (allowed st ++ [domain]) (stdin st) (trace st), Ok tt).

End Program.

Declare Scope agent_scope.
Delimit Scope agent_scope with agent.
Notation "x <- c ;; k" := (bind c (fun x => k))
  (at level 61, c at next level, right associativity) : agent_scope.
Notation "c ;; k" := (bind c (fun _ => k))
  (at level 61, right associativity) : agent_scope.
Local Open Scope agent_scope.

Section Agent.
Context {env : Env}.

(** [get_domain_from_url] (lines 56-62): the network location with every
    occurrence of "www." replaced by nothing; the empty string when
    anything raises. *)
Definition get_domain_from_url (url : json) : string :=
  match urlparse_netloc env url with
  | Ok netloc => PyStr.replace netloc "www." ""
  | Raise _ => ""
  end.

(** The body of the [try] of [ask_openai_for_plan] (lines 103-108): the
    text with its code fence removed when it starts with one, and the
    value decoded from it. *)
Definition unfence (text : string) : string :=
  if PyStr.startswith text "```"
  then PyStr.join PyStr.newline (PyStr.slice_1_m1 (PyStr.splitlines text))
  else text.

Definition parse_plan_text (text : string) : res json :=
  match json_loads env (unfence text) with
  | Ok plan => Ok plan
  | Raise (Exn cls args) =>
      Raise (Exn "RuntimeError"
               (JStr "Failed to parse JSON from model response."
                :: JStr (unfence text) :: JStr cls :: args))
  end.

(** What [ask_openai_for_plan] makes of the planner's answer (lines
    101-110): the answer is stripped, then unfenced and decoded. *)
Definition plan_of_reply (content : string) : res json :=
  parse_plan_text (PyStr.strip content).

(** [ask_openai_for_plan] (lines 64-110).  [page_text] is [None] when
    the page body had no inner text to give; slicing it then raises. *)
Definition ask_openai_for_plan (page_text : option string)
    (page_url user_task : string) : M json :=
  match page_text with
  | None => raise (Exn "TypeError" [JStr "'NoneType' object is not subscriptable"])
  | Some t =>
      let snippet := substring 0 3000 t in
      content <- call (EChat page_url snippet user_task)
                      (chat_completion env page_url snippet user_task) ;;
      pure (plan_of_reply content)
  end.

(** [by_map] of [find_element] (lines 113-119). *)
Definition by_map (key : string) : option By :=
  if String.eqb key "css" then Some CSS_SELECTOR
  else if String.eqb key "xpath" then Some XPATH
  else if String.eqb key "id" then Some ID
  else if String.eqb key "name" then Some NAME
  else if String.eqb key "link_text" then Some LINK_TEXT
  else None.

(** [find_element] (lines 112-122).  The membership test [by not in
    by_map] raises on an unhashable [by] (a list or a dict). *)
Definition find_element (by_ selector : json) : M (Element env) :=
  match by_ with
  | JArr _ | JObj _ => raise (Exn "TypeError" [JStr "unhashable type"])
  | JStr key =>
      match by_map key with
      | Some b => call (EFind b selector) (driver_find_element env b selector)
      | None => raise (Exn "ValueError" [JStr "Unsupported selector type: "; by_])
      end
  | _ => raise (Exn "ValueError" [JStr "Unsupported selector type: "; by_])
  end.

(** The body of the [try] of [execute_plan] (lines 133-156). *)
Definition run_action (action by_ selector value : json) : M unit :=
  if eq_str action "wait" then
    if truthy value
    then secs <- pure (py_float env value) ;; sleep_value secs
    else sleep_const DEFAULT_WAIT
  else if eq_str action "navigate" then
    valid <- pure (validators_url env value) ;;
    if negb valid
    then raise (Exn "ValueError" [JStr "Invalid URL in navigate action."])
    else call (EGet value) (driver_get env value) ;; sleep_const DEFAULT_WAIT
  else if eq_str action "click" || eq_str action "fill" || eq_str action "submit" then
    elem <- find_element by_ selector ;;
    (if eq_str action "click" then
       call (EClick elem) (element_click env elem)
     else if eq_str action "fill" then
       call (EClear elem) (element_clear env elem) ;;
       call (ESendKeys elem value) (element_send_keys env elem value)
     else if eq_str action "submit" then
       try_except (call (ESubmit elem) (element_submit env elem))
                  (fun _ => call (EClick elem) (element_click env elem))
     else ret tt) ;;
    sleep_const 0.5%float
  else print (MUnknownAction action).

(** One turn of the loop of [execute_plan] (lines 126-160): [true] when
    the loop goes on, [false] when it returns [False]. *)
Definition run_step (n i : nat) (step : json) : M bool :=
  action <- pure (py_get step "action" JNull) ;;
  by_ <- pure (py_get step "by" JNull) ;;
  selector <- pure (py_get step "selector" JNull) ;;
  value <- pure (py_get step "value" (JStr "")) ;;
  print (MStep i n action by_ selector value) ;;
  try_except (run_action action by_ selector value ;; ret true)
             (fun e => print (MStepError i e) ;; ret false).

(** The loop of [execute_plan] from step number [i] on; [n] is
    [len(plan)]. *)
Fixpoint run_steps (n i : nat) (steps : list json) : M bool :=
  match steps with
  | [] => ret true
  | step :: rest =>
      go_on <- run_step n i step ;;
      if go_on then run_steps n (S i) rest else ret false
  end.

(** [execute_plan] (lines 124-161). *)
Definition execute_plan (plan : json) : M bool :=
  steps <- pure (py_iter plan) ;;
  run_steps (length steps) 1 steps.

(** The safety check of [main] (lines 221-230) on the steps of the plan:
    the first navigation domain that is not allowed, if any. *)
Fixpoint first_disallowed (allowed_now : list string) (steps : list json)
    : res (option string) :=
  match steps with
  | [] => Ok None
  | step :: rest =>
      res_bind (py_get step "action" JNull) (fun action =>
      if eq_str action "navigate" then
        res_bind (py_get step "value" (JStr "")) (fun nav_url =>
        if truthy nav_url then
          let nav_domain := get_domain_from_url nav_url in
          if negb (PyStr.mem nav_domain allowed_now) then Ok (Some nav_domain)
          else first_disallowed allowed_now rest
        else first_disallowed allowed_now rest)
      else first_disallowed allowed_now rest)
  end.

Definition navigation_gate (allowed_now : list string) (plan : json)
    : res (option string) :=
  res_bind (py_iter plan) (first_disallowed allowed_now).

Definition quit : M unit := call EQuit (driver_quit env).

(** [main] from the moment it holds a plan (lines 216-248). *)
Definition review_and_run (plan : json) : M unit :=
  print MPlanBegin ;; print (MPlan plan) ;; print MPlanEnd ;;
  allowed_now <- get_allowed ;;
  verdict <- pure (navigation_gate allowed_now plan) ;;
  match verdict with
  | Some nav_domain =>
      print (MDisallowed nav_domain) ;; print MRefusing ;; quit
  | None =>
      line <- input AskApprove ;;
      let approve := PyStr.lower (PyStr.strip line) in
      if negb (String.eqb approve "yes") then
        print MNotApproved ;; quit
      else
        print MExecuting ;;
        success <- execute_plan plan ;;
        (if success then print MSuccess else print MFailed) ;;
        sleep_const 5%float ;;
        quit ;;
        print MClosed
  end.

(** The session entry check of [main] (lines 178-188): [true] when the
    run goes on. *)
Definition enter_session (start_url : string) : M bool :=
  let domain := get_domain_from_url (JStr start_url) in
  print (MTargetDomain domain) ;;
  allowed_now <- get_allowed ;;
  if negb (PyStr.mem domain allowed_now) then
    print (MWarnNotAllowed domain) ;;
    line <- input AskAllowDomain ;;
    let allow := PyStr.lower (PyStr.strip line) in
    if negb (String.eqb allow "yes") then
      print MAddDomainHint ;; ret false
    else
      append_allowed domain ;; print MDomainAdded ;; ret true
  else ret true.

(** [main] up to the moment it holds a plan (lines 167-214): the plan,
    or [None] when the run ends before there is one. *)
Definition obtain_plan : M (option json) :=
  print MBanner ;; print MImportant ;;
  line <- input AskStartUrl ;;
  let start_url := PyStr.strip line in
  let start_url := if String.eqb start_url "" then "https://example.com" else start_url in
  valid <- pure (validators_url env (JStr start_url)) ;;
  if negb valid then print MInvalidUrl ;; ret None
  else
    go_on <- enter_session start_url ;;
    if negb go_on then ret None
    else
      call EChrome (chrome env) ;;
      call EMaximize (maximize_window env) ;;
      call (EGet (JStr start_url)) (driver_get env (JStr start_url)) ;;
      sleep_const DEFAULT_WAIT ;;
      print MPageLoaded ;;
      page_text <- try_except (call EBodyText (body_inner_text env))
                     (fun _ => src <- call EPageSource (page_source env) ;;
                               ret (Some (substring 0 5000 src))) ;;
      line <- input AskTask ;;
      let task := PyStr.strip line in
      if String.eqb task "" then print MNoTask ;; quit ;; ret None
      else
        print MRequesting ;;
        try_except
          (plan <- ask_openai_for_plan page_text start_url task ;;
           ret (Some plan))
          (fun e => print (MFailedPlan e) ;; quit ;; ret None).

(** [main] (lines 166-248). *)
Definition main : M unit :=
  got <- obtain_plan ;;
  match got with
  | Some plan => review_and_run plan
  | None => ret tt
  end.

End Agent.

(** ** A simulated environment

    A small deterministic stand-in for the libraries, on which the
    program can be run: a decoder for the JSON fragment without
    fractions, exponents and [\u] escapes (anything else is a decode
    error), the network location of [urlsplit] for ASCII URLs, a crude
    URL validator, and a browser whose pages hold every element but
    those whose selector starts with "#missing", where only elements
    whose selector starts with "form" can be submitted. *)

Module Sim.

(** *** JSON decoding *)

(** The double quote. *)
Definition quote : ascii := ascii_of_nat 34.

(** A text with every apostrophe turned into a double quote: JSON texts
    are written below with apostrophes around their strings. *)
Fixpoint quoted (s : string) : string :=
  match s with
  | "" => ""
  | String c r => String (if Ascii.eqb c "'" then quote else c) (quoted r)
  end.

Definition is_json_ws (c : ascii) : bool :=
  let n := nat_of_ascii c in ((n =? 32) || (n =? 9) || (n =? 10) || (n =? 13))%nat.

Fixpoint skip_ws (s : string) : string :=
  match s with
  | "" => ""
  | String c r => if is_json_ws c then skip_ws r else s
  end.

Definition is_digit (c : ascii) : bool :=
  let n := nat_of_ascii c in ((48 <=? n) && (n <=? 57))%nat.

(** The characters of a string literal after its opening quote. *)
Fixpoint scan_string (s : string) : option (string * string) :=
  match s with
  | "" => None
  | String c r =>
      if Ascii.eqb c quote then Some ("", r)
      else if Ascii.eqb c "\" then
        match r with
        | String e r' =>
            let unescaped :=
              if Ascii.eqb e quote then Some quote
              else if Ascii.eqb e "\" then Some "\"%char
              else if Ascii.eqb e "/" then Some "/"%char
              else if Ascii.eqb e "b" then Some (ascii_of_nat 8)
              else if Ascii.eqb e "f" then Some (ascii_of_nat 12)
              else if Ascii.eqb e "n" then Some (ascii_of_nat 10)
              else if Ascii.eqb e "r" then Some (ascii_of_nat 13)
              else if Ascii.eqb e "t" then Some (ascii_of_nat 9)
              else None in
            match unescaped, scan_string r' with
            | Some u, Some (body, rest) => Some (String u body, rest)
            | _, _ => None
            end
        | "" => None
        end
      else if (nat_of_ascii c <? 32)%nat then None
      else match scan_string r with
           | Some (body, rest) => Some (String c body, rest)
           | None => None
           end
  end.

Fixpoint scan_digits (s : string) (acc : Z) : Z * string :=
  match s with
  | String c r =>
      if is_digit c
      then scan_digits r (10 * acc + Z.of_nat (nat_of_ascii c - 48))
      else (acc, s)
  | "" => (acc, "")
  end.

Definition starts_fraction (s : string) : bool :=
  match s with
  | String c _ => Ascii.eqb c "." || Ascii.eqb c "e" || Ascii.eqb c "E"
  | "" => false
  end.

(** An integer literal: no leading zero, nothing fractional after it. *)
Definition scan_int (s : string) : option (Z * string) :=
  let (negative, digits) :=
    match s with
    | String "-" r => (true, r)
    | _ => (false, s)
    end in
  match digits with
  | String c r =>
      if is_digit c then
        let (z, rest) :=
          if Ascii.eqb c "0" then (0%Z, r) else scan_digits digits 0 in
        if starts_fraction rest then None
        else Some (if negative then (- z)%Z else z, rest)
      else None
  | "" => None
  end.

Definition expect (lit : string) (v : json) (s : string) : option (json * string) :=
  if prefix lit s
  then Some (v, substring (String.length lit) (String.length s - String.length lit) s)
  else None.

(** A later binding of a key replaces the earlier one, as in a dict. *)
Fixpoint dict_set (k : string) (v : json) (m : list (string * json))
    : list (string * json) :=
  match m with
  | [] => [(k, v)]
  | (k', v') :: m' =>
      if String.eqb k k' then (k, v) :: m' else (k', v') :: dict_set k v m'
  end.

Fixpoint parse_value (fuel : nat) (s : string) : option (json * string) :=
  match fuel with
  | O => None
  | S fuel' =>
      match s with
      | String "n" _ => expect "null" JNull s
      | String "t" _ => expect "true" (JBool true) s
      | String "f" _ => expect "false" (JBool false) s
      | String "[" r =>
          match skip_ws r with
          | String "]" rest => Some (JArr [], rest)
          | r' =>
              match parse_elements fuel' r' with
              | Some (items, rest) => Some (JArr items, rest)
              | None => None
              end
          end
      | String "{" r =>
          match skip_ws r with
          | String "}" rest => Some (JObj [], rest)
          | r' =>
              match parse_members fuel' r' [] with
              | Some (m, rest) => Some (JObj m, rest)
              | None => None
              end
          end
      | String c r =>
          if Ascii.eqb c quote then
            match scan_string r with
            | Some (body, rest) => Some (JStr body, rest)
            | None => None
            end
          else
            match scan_int s with
            | Some (z, rest) => Some (JInt z, rest)
            | None => None
            end
      | "" => None
      end
  end

with parse_elements (fuel : nat) (s : string) : option (list json * string) :=
  match fuel with
  | O => None
  | S fuel' =>
      match parse_value fuel' s with
      | Some (v, rest) =>
          match skip_ws rest with
          | String "]" rest' => Some ([v], rest')
          | String "," rest' =>
              match parse_elements fuel' (skip_ws rest') with
              | Some (vs, rest'') => Some (v :: vs, rest'')
              | None => None
              end
          | _ => None
          end
      | None => None
      end
  end

with parse_members (fuel : nat) (s : string) (acc : list (string * json))
    : option (list (string * json) * string) :=
  match fuel with
  | O => None
  | S fuel' =>
      match s with
      | String c r =>
          if Ascii.eqb c quote then
            match scan_string r with
            | Some (key, rest) =>
                match skip_ws rest with
                | String ":" rest' =>
                    match parse_value fuel' (skip_ws rest') with
                    | Some (v, rest'') =>
                        let acc' := dict_set key v acc in
                        match skip_ws rest'' with
                        | String "}" rest3 => Some (acc', rest3)
                        | String "," rest3 => parse_members fuel' (skip_ws rest3) acc'
                        | _ => None
                        end
                    | None => None
                    end
                | _ => None
                end
            | None => None
            end
          else None
      | "" => None
      end
  end.

Definition decode_error : exn := Exn "JSONDecodeError" [].

Definition json_loads (s : string) : res json :=
  match parse_value (2 * String.length s + 2) (skip_ws s) with
  | Some (v, rest) =>
      match skip_ws rest with
      | "" => Ok v
      | _ => Raise decode_error
      end
  | None => Raise decode_error
  end.

(** *** The network location of a URL *)

Fixpoint lstrip_c0 (s : string) : string :=
  match s with
  | "" => ""
  | String c r => if (nat_of_ascii c <=? 32)%nat then lstrip_c0 r else s
  end.

Fixpoint remove_tab_cr_lf (s : string) : string :=
  match s with
  | "" => ""
  | String c r =>
      let n := nat_of_ascii c in
      if ((n =? 9) || (n =? 10) || (n =? 13))%nat
      then remove_tab_cr_lf r else String c (remove_tab_cr_lf r)
  end.

Definition is_alpha (c : ascii) : bool :=
  let n := nat_of_ascii c in
  (((65 <=? n) && (n <=? 90)) || ((97 <=? n) && (n <=? 122)))%nat.

Definition is_scheme_char (c : ascii) : bool :=
  is_alpha c || is_digit c || Ascii.eqb c "+" || Ascii.eqb c "-" || Ascii.eqb c ".".

(** What follows the scheme and its colon, when the text before the
    first colon is a scheme. *)
Fixpoint after_scheme (s : string) : option string :=
  match s with
  | "" => None
  | String c r =>
      if Ascii.eqb c ":" then Some r
      else if is_scheme_char c then after_scheme r else None
  end.

Definition drop_scheme (url : string) : string :=
  match url with
  | String c _ =>
      if is_alpha c
      then match after_scheme url with Some rest => rest | None => url end
      else url
  | "" => ""
  end.

Fixpoint until_delim (s : string) : string :=
  match s with
  | "" => ""
  | String c r =>
      if Ascii.eqb c "/" || Ascii.eqb c "?" || Ascii.eqb c "#" then ""
      else String c (until_delim r)
  end.

Fixpoint has_char (c : ascii) (s : string) : bool :=
  match s with
  | "" => false
  | String c' r => Ascii.eqb c c' || has_char c r
  end.

Definition netloc_of (url : string) : res string :=
  match drop_scheme (remove_tab_cr_lf (lstrip_c0 url)) with
  | String "/" (String "/" r) =>
      let netloc := until_delim r in
      if xorb (has_char "[" netloc) (has_char "]" netloc)
      then Raise (Exn "ValueError" [JStr "Invalid IPv6 URL"])
      else Ok netloc
  | _ => Ok ""
  end.

Definition urlparse_netloc (url : json) : res string :=
  match url with
  | JStr s => netloc_of s
  | _ => Raise (Exn "AttributeError" [JStr "decode"])
  end.

(** *** URL validation, durations *)

Definition validators_url (value : json) : res bool :=
  match value with
  | JStr s =>
      Ok ((prefix "http://" s || prefix "https://" s)
          && negb (existsb PyStr.is_space (list_ascii_of_string s))
          && match netloc_of s with
             | Ok netloc => negb (String.eqb netloc "")
             | Raise _ => false
             end)
  | _ => Ok false
  end.

Definition py_float (value : json) : res float :=
  match value with
  | JFloat f => Ok f
  | JInt z =>
      if (0 <=? z)%Z && (z <? 1000000)%Z
      then Ok (PrimFloat.of_uint63 (Uint63.of_Z z))
      else if (-1000000 <? z)%Z && (z <? 0)%Z
      then Ok (PrimFloat.opp (PrimFloat.of_uint63 (Uint63.of_Z (- z))))
      else Raise (Exn "OverflowError" [])
  | JBool b => Ok (if b then 1%float else 0%float)
  | JStr _ => Raise (Exn "ValueError" [JStr "could not convert string to float"])
  | _ => Raise (Exn "TypeError" [JStr "float() argument must be a string or a real number"])
  end.

Definition sleep_fails (secs : float) : option exn :=
  if PrimFloat.ltb secs 0%float
  then Some (Exn "ValueError" [JStr "sleep length must be non-negative"])
  else None.

(** *** The browser and the planner *)

(** The simulated world: what the planner will answer, the address the
    browser shows, what was typed into which element, the elements
    clicked and submitted, and whether the session is open. *)
Record sim_world : Type := mkWorld {
  planner_reply : string;
  location : string;
  typed : list (string * json);
  clicked : list string;
  submitted : list string;
  session_open : bool
}.

Definition chat_completion (page_url page_text user_task : string) (w : sim_world)
    : sim_world * res string :=
  (w, Ok (planner_reply w)).

Definition chrome (w : sim_world) : sim_world * res unit :=
  (mkWorld (planner_reply w) "" (typed w) (clicked w) (submitted w) true, Ok tt).

Definition maximize_window (w : sim_world) : sim_world * res unit := (w, Ok tt).

Definition driver_get (url : json) (w : sim_world) : sim_world * res unit :=
  match url with
  | JStr s =>
      (mkWorld (planner_reply w) s (typed w) (clicked w) (submitted w) (session_open w),
       Ok tt)
  | _ => (w, Raise (Exn "InvalidArgumentException" []))
  end.

Definition body_inner_text (w : sim_world) : sim_world * res (option string) :=
  (w, Ok (Some ("Page at " ++ location w)%string)).

Definition page_source (w : sim_world) : sim_world * res string :=
  (w, Ok ("<html><body>Page at " ++ location w ++ "</body></html>")%string).

Definition driver_find_element (b : By) (selector : json) (w : sim_world)
    : sim_world * res string :=
  match selector with
  | JStr s =>
      if prefix "#missing" s
      then (w, Raise (Exn "NoSuchElementException" [selector]))
      else (w, Ok s)
  | _ => (w, Raise (Exn "InvalidArgumentException" [selector]))
  end.

Definition element_click (elem : string) (w : sim_world) : sim_world * res unit :=
  (mkWorld (planner_reply w) (location w) (typed w) (clicked w ++ [elem])
           (submitted w) (session_open w), Ok tt).

Definition element_clear (elem : string) (w : sim_world) : sim_world * res unit :=
  (mkWorld (planner_reply w) (location w)
           (filter (fun kv => negb (String.eqb (fst kv) elem)) (typed w))
           (clicked w) (submitted w) (session_open w), Ok tt).

Definition element_send_keys (elem : string) (value : json) (w : sim_world)
    : sim_world * res unit :=
  (mkWorld (planner_reply w) (location w) (typed w ++ [(elem, value)])
           (clicked w) (submitted w) (session_open w), Ok tt).

Definition element_submit (elem : string) (w : sim_world) : sim_world * res unit :=
  if prefix "form" elem
  then (mkWorld (planner_reply w) (location w) (typed w) (clicked w)
                (submitted w ++ [elem]) (session_open w), Ok tt)
  else (w, Raise (Exn "JavascriptException" [JStr "not in a form"])).

Definition driver_quit (w : sim_world) : sim_world * res unit :=
  (mkWorld (planner_reply w) (location w) (typed w) (clicked w) (submitted w) false,
   Ok tt).

Definition env : Env :=
  Build_Env sim_world string json_loads urlparse_netloc validators_url py_float
    sleep_fails chat_completion chrome maximize_window driver_get
    body_inner_text page_source driver_find_element element_click
    element_clear element_send_keys element_submit driver_quit eq_refl.

(** The state a run starts in: the configured allowlist, the given
    world and input, nothing observed yet. *)
Definition start (w : sim_world) (lines : list string) : @state env :=
  @mkState env w ALLOWED_DOMAINS lines [].

(** A world before the browser is started, with the planner's answer. *)
Definition fresh (reply : string) : sim_world := mkWorld reply "" [] [] [] false.

(** A world with the browser open on a page. *)
Definition browsing (url : string) : sim_world := mkWorld "" url [] [] [] true.

End Sim.

(** ** Reading plans and traces *)

(** The value of [m.get(k, default)] on a dict. *)
Definition field (m : list (string * json)) (k : string) (default : json) : json :=
  match assoc k m with
  | Some v => v
  | None => default
  end.

(** The five action kinds the executor knows. *)
Definition recognized (action : json) : bool :=
  eq_str action "wait" || eq_str action "navigate" || eq_str action "click"
  || eq_str action "fill" || eq_str action "submit".

Definition is_object (v : json) : bool :=
  match v with
  | JObj _ => true
  | _ => false
  end.

Section Observations.
Context {env : Env}.

(** A state with more events observed and nothing else changed. *)
Definition logged (st : state) (evs : list (event (Element env))) : state :=
  mkState (world st) (allowed st) (stdin st) (trace st ++ evs).

(** The header [[i/n] Action: ...] that opens the attempt of step [i]. *)
Definition header (n i : nat) (m : list (string * json)) : event (Element env) :=
  EPrint (MStep i n (field m "action" JNull) (field m "by" JNull)
                (field m "selector" JNull) (field m "value" (JStr ""))).

(** The numbers of the steps attempted, in order: one per header. *)
Fixpoint attempted (evs : list (event (Element env))) : list nat :=
  match evs with
  | [] => []
  | EPrint (MStep i _ _ _ _ _) :: evs' => i :: attempted evs'
  | _ :: evs' => attempted evs'
  end.

(** The numbers of the steps reported as failed: one per error line. *)
Fixpoint failed (evs : list (event (Element env))) : list nat :=
  match evs with
  | [] => []
  | EPrint (MStepError i _) :: evs' => i :: failed evs'
  | _ :: evs' => failed evs'
  end.

(** Neither a step header nor a step error line. *)
Definition quiet (e : event (Element env)) : bool :=
  match e with
  | EPrint (MStep _ _ _ _ _ _) | EPrint (MStepError _ _) => false
  | _ => true
  end.

Definition is_print (e : event (Element env)) : bool :=
  match e with
  | EPrint _ => true
  | _ => false
  end.

Definition is_approval_prompt (e : event (Element env)) : bool :=
  match e with
  | EInput AskApprove _ => true
  | _ => false
  end.

(** [adds Q c]: whatever the state, [c] leaves the allowlist and the
    input as they are and adds only events that satisfy [Q]. *)
Definition adds (Q : event (Element env) -> bool) {A} (c : M A) : Prop :=
  forall st, exists w evs,
    fst (c st) = mkState w (allowed st) (stdin st) (trace st ++ evs)
    /\ forallb Q evs = true.

(** A step the executor has no action for: a dict whose [action] is
    none of the five kinds. *)
Definition unrecognized_step (step : json) : bool :=
  match step with
  | JObj m => negb (recognized (field m "action" JNull))
  | _ => false
  end.

(** The lines an unrecognized step prints, for each step of a list,
    numbered from [i] on. *)
Fixpoint skipped_lines (n i : nat) (steps : list json) : list (event (Element env)) :=
  match steps with
  | [] => []
  | JObj m :: more =>
      header n i m :: EPrint (MUnknownAction (field m "action" JNull))
      :: skipped_lines n (S i) more
  | _ :: more => skipped_lines n (S i) more
  end.

End Observations.

(** A text wrapped in a fenced block: a first line that opens the fence,
    with whatever follows the backquotes on it, the inner content, and a
    last line. *)
Definition fence (tag inner last : string) : string :=
  ("```" ++ tag ++ PyStr.newline ++ inner ++ PyStr.newline ++ last)%string.

(** The plan in a result, if it is one. *)
Definition decoded (r : res json) : option json :=
  match r with
  | Ok plan => Some plan
  | Raise _ => None
  end.

Fixpoint all_chars (p : ascii -> bool) (s : string) : bool :=
  match s with
  | "" => true
  | String c r => p c && all_chars p r
  end.

(** No line boundary at all. *)
Definition one_line (s : string) : bool :=
  all_chars (fun c => negb (PyStr.is_linebreak c)) s.

(** No line boundary other than LF. *)
Definition lf_only (s : string) : bool :=
  all_chars (fun c => negb (PyStr.is_linebreak c) || Ascii.eqb c PyStr.LF) s.

(** A line boundary as it stands in a text: one boundary character, or
    CR LF. *)
Definition boundary (nl : string) : bool :=
  match nl with
  | String c "" => PyStr.is_linebreak c
  | String c (String d "") => Ascii.eqb c PyStr.CR && Ascii.eqb d PyStr.LF
  | _ => false
  end.

(** The last character of [s] is a CR. *)
Fixpoint ends_with_CR (s : string) : bool :=
  match s with
  | "" => false
  | String c r =>
      match r with
      | "" => Ascii.eqb c PyStr.CR
      | _ => ends_with_CR r
      end
  end.

(** A CR at the end of [a] and a LF at the start of [b]: put side by
    side, the two read as the one boundary CR LF. *)
Definition joins_as_crlf (a b : string) : bool :=
  ends_with_CR a
  && match b with
     | String c _ => Ascii.eqb c PyStr.LF
     | "" => false
     end.

(** A text with each of its line boundaries, CR LF counting as one,
    rewritten to LF.  [after_cr] as in [PyStr.splitlines_from]. *)
Fixpoint relined_from (after_cr : bool) (s : string) : string :=
  match s with
  | "" => ""
  | String c r =>
      if after_cr && Ascii.eqb c PyStr.LF then relined_from false r
      else if PyStr.is_linebreak c
           then String PyStr.LF (relined_from (Ascii.eqb c PyStr.CR) r)
           else String c (relined_from false r)
  end.

Definition relined (s : string) : string := relined_from false s.

(** A fenced text whose first line ends at the boundary [nl1] and whose
    last line starts after the boundary [nl2]. *)
Definition fence_with (nl1 nl2 tag inner last : string) : string :=
  ("```" ++ tag ++ nl1 ++ inner ++ nl2 ++ last)%string.

(** ** Plans used as examples *)

Module Plans.

Definition click (selector : string) : json :=
  JObj [("action", JStr "click"); ("by", JStr "css"); ("selector", JStr selector)].

Definition fill (selector value : string) : json :=
  JObj [("action", JStr "fill"); ("by", JStr "css");
        ("selector", JStr selector); ("value", JStr value)].

Definition submit (selector : string) : json :=
  JObj [("action", JStr "submit"); ("by", JStr "css"); ("selector", JStr selector)].

Definition navigate (url : string) : json :=
  JObj [("action", JStr "navigate"); ("value", JStr url)].

(** A navigation step without a [value]. *)
Definition navigate_nowhere : json := JObj [("action", JStr "navigate")].

Definition dance : json := JObj [("action", JStr "dance")].

(** Three steps, the second on an element that does not exist. *)
Definition second_fails : list json :=
  [click "#go"; fill "#missing" "x"; click "#later"].

(** Two steps, the first on an element that does not exist. *)
Definition first_fails : list json := [click "#missing"; click "#go"].

End Plans.

(** ** More ways to read plans and traces *)

(** The locator a selector kind stands for, if it is one of the five. *)
Definition locator (by_ : json) : option By :=
  match by_ with
  | JStr key => by_map key
  | _ => None
  end.

(** [sub in s] for strings. *)
Fixpoint contains (s sub : string) : bool :=
  prefix sub s
  || match s with
     | "" => false
     | String _ r => contains r sub
     end.

Section Safety.
Context {env : Env}.

(** A step the navigation gate lets through under an allowlist: a dict
    that is no navigation, or navigates nowhere, or navigates to an
    allowed domain. *)
Definition step_passes (allowed_now : list string) (step : json) : bool :=
  match step with
  | JObj m =>
      if eq_str (field m "action" JNull) "navigate"
         && truthy (field m "value" (JStr ""))
      then PyStr.mem (get_domain_from_url (field m "value" (JStr ""))) allowed_now
      else true
  | _ => false
  end.

(** An action on an element of the page. *)
Definition is_element_action (e : event (Element env)) : bool :=
  match e with
  | EFind _ _ | EClick _ | EClear _ | ESendKeys _ _ | ESubmit _ => true
  | _ => false
  end.

(** Neither the header of a step nor an action on an element. *)
Definition no_step (e : event (Element env)) : bool :=
  match e with
  | EPrint (MStep _ _ _ _ _ _) => false
  | _ => negb (is_element_action e)
  end.

(** What the executor can do: print, sleep, load an address, act on an
    element. *)
Definition executor_event (e : event (Element env)) : bool :=
  match e with
  | EPrint _ | ESleep _ | EGet _ => true
  | _ => is_element_action e
  end.

(** Loading an address is loading one whose domain is in the list. *)
Definition allowed_get (allowed_now : list string) (e : event (Element env)) : bool :=
  match e with
  | EGet url => PyStr.mem (get_domain_from_url url) allowed_now
  | _ => true
  end.

Definition any_event (e : event (Element env)) : bool := true.

(** [runs P Q c]: from a state whose allowlist satisfies [P], [c] only
    adds events, all of which satisfy [Q] for the allowlist it leaves,
    removes nothing from the allowlist, and leaves one that satisfies
    [P]. *)
Definition runs (P : list string -> Prop)
    (Q : list string -> event (Element env) -> bool) {A} (c : M A) : Prop :=
  forall st, P (allowed st) ->
    exists evs,
      trace (fst (c st)) = trace st ++ evs
      /\ forallb (Q (allowed (fst (c st)))) evs = true
      /\ incl (allowed st) (allowed (fst (c st)))
      /\ P (allowed (fst (c st))).

(** [Q] goes on holding when domains are added. *)
Definition monotone (Q : list string -> event (Element env) -> bool) : Prop :=
  forall l l' e, incl l l' -> Q l e = true -> Q l' e = true.

Definition no_chrome (e : event (Element env)) : bool :=
  match e with
  | EChrome => false
  | _ => true
  end.

(** The browser was closed, and nothing but printing came after. *)
Definition closed_after (evs : list (event (Element env))) : Prop :=
  exists pre post, evs = pre ++ EQuit :: post /\ forallb is_print post = true.

(** [shuts need ok c]: [c] only adds events, and whenever it returns a
    value that satisfies [ok] after events that satisfy [need], it has
    closed the browser. *)
Definition shuts (need : list (event (Element env)) -> Prop) {A} (ok : A -> Prop)
    (c : M A) : Prop :=
  forall st, exists evs,
    trace (fst (c st)) = trace st ++ evs
    /\ forall a, snd (c st) = Ok a -> ok a -> need evs -> closed_after evs.

(** No condition on the events. *)
Definition always (evs : list (event (Element env))) : Prop := True.

(** [main] once the browser may be started (lines 190-214): the plan,
    or [None] when the run ends before there is one. *)
Definition open_and_plan (start_url : string) : M (option json) :=
  call EChrome (chrome env) ;;
  call EMaximize (maximize_window env) ;;
  call (EGet (JStr start_url)) (driver_get env (JStr start_url)) ;;
  sleep_const DEFAULT_WAIT ;;
  print MPageLoaded ;;
  page_text <- try_except (call EBodyText (body_inner_text env))
                 (fun _ => src <- call EPageSource (page_source env) ;;
                           ret (Some (substring 0 5000 src))) ;;
  line <- input AskTask ;;
  let task := PyStr.strip line in
  if String.eqb task "" then print MNoTask ;; quit ;; ret None
  else
    print MRequesting ;;
    try_except
      (plan <- ask_openai_for_plan page_text start_url task ;;
       ret (Some plan))
      (fun e => print (MFailedPlan e) ;; quit ;; ret None).

(** [main] once the plan is approved (lines 238-248). *)
Definition run_approved (plan : json) : M unit :=
  print MExecuting ;;
  success <- execute_plan plan ;;
  (if success then print MSuccess else print MFailed) ;;
  sleep_const 5%float ;;
  quit ;;
  print MClosed.

(** The address [main] opens for a line read at its first prompt. *)
Definition start_url_of (line : string) : string :=
  if String.eqb (PyStr.strip line) "" then "https://example.com"
  else PyStr.strip line.

End Safety.

(** ** The monad's equations *)

Section Equations.
Context {env : Env}.

(** Once [main] holds a plan, what it does is [review_and_run]. *)
Lemma main_with_plan st st1 plan :
  obtain_plan st = (st1, Ok (Some plan)) -> main st = review_and_run plan st1.
Proof. intros H. unfold main, bind. rewrite H. reflexivity. Qed.

Lemma logged_nil st : logged st [] = st.
Proof. destruct st. unfold logged. simpl. rewrite app_nil_r. reflexivity. Qed.

Lemma logged_logged st evs evs' :
  logged (logged st evs) evs' = logged st (evs ++ evs').
Proof. unfold logged. simpl. rewrite app_assoc. reflexivity. Qed.

Lemma py_get_object m k d : py_get (JObj m) k d = Ok (field m k d).
Proof. reflexivity. Qed.

Lemma attempted_app (evs evs' : list (event (Element env))) :
  attempted (evs ++ evs') = attempted evs ++ attempted evs'.
Proof.
  induction evs as [|e evs IH]; simpl; [reflexivity|].
  destruct e as [[]| | | | | | | | | | | | | |]; simpl; rewrite ?IH; reflexivity.
Qed.

Lemma failed_app (evs evs' : list (event (Element env))) :
  failed (evs ++ evs') = failed evs ++ failed evs'.
Proof.
  induction evs as [|e evs IH]; simpl; [reflexivity|].
  destruct e as [[]| | | | | | | | | | | | | |]; simpl; rewrite ?IH; reflexivity.
Qed.

Lemma quiet_attempted (evs : list (event (Element env))) :
  forallb quiet evs = true -> attempted evs = [].
Proof.
  induction evs as [|e evs IH]; simpl; [reflexivity|].
  intros H. apply andb_true_iff in H. destruct H as [He H].
  destruct e as [[]| | | | | | | | | | | | | |]; simpl in *; auto; discriminate.
Qed.

Lemma quiet_failed (evs : list (event (Element env))) :
  forallb quiet evs = true -> failed evs = [].
Proof.
  induction evs as [|e evs IH]; simpl; [reflexivity|].
  intros H. apply andb_true_iff in H. destruct H as [He H].
  destruct e as [[]| | | | | | | | | | | | | |]; simpl in *; auto; discriminate.
Qed.

End Equations.

(** ** Computations that only add events *)

Section Adds.
Context {env : Env}.
Variable Q : event (Element env) -> bool.

Lemma adds_ret {A} (a : A) : adds Q (ret a).
Proof.
  intros [w al inp tr]. exists w, []. simpl. rewrite app_nil_r. auto.
Qed.

Lemma adds_raise {A} e : adds Q (@raise env A e).
Proof.
  intros [w al inp tr]. exists w, []. simpl. rewrite app_nil_r. auto.
Qed.

Lemma adds_pure {A} (r : res A) : adds Q (pure r).
Proof.
  intros [w al inp tr]. exists w, []. simpl. rewrite app_nil_r. auto.
Qed.

Lemma adds_emit e : Q e = true -> adds Q (emit e).
Proof.
  intros He [w al inp tr]. exists w, [e]. simpl. rewrite He. auto.
Qed.

Lemma adds_call {A} e (op : World env -> World env * res A) :
  Q e = true -> adds Q (call e op).
Proof.
  intros He [w al inp tr]. unfold call. simpl.
  destruct (op w) as [w' r]. exists w', [e]. simpl. rewrite He. auto.
Qed.

Lemma adds_sleep_value secs : Q (ESleep secs) = true -> adds Q (sleep_value secs).
Proof.
  intros He [w al inp tr]. exists w, [ESleep secs]. simpl. rewrite He. auto.
Qed.

Lemma adds_bind {A B} (c : M A) (k : A -> M B) :
  adds Q c -> (forall a, adds Q (k a)) -> adds Q (bind c k).
Proof.
  intros Hc Hk st. unfold bind.
  destruct (Hc st) as (w & evs & E & HQ).
  destruct (c st) as [st1 [a|e]]; simpl in E; subst st1.
  - destruct (Hk a (mkState w (allowed st) (stdin st) (trace st ++ evs)))
      as (w' & evs' & E' & HQ').
    exists w', (evs ++ evs'). simpl in E'. rewrite E', app_assoc, forallb_app, HQ, HQ'.
    auto.
  - exists w, evs. auto.
Qed.

Lemma adds_try {A} (c : M A) (h : exn -> M A) :
  adds Q c -> (forall e, adds Q (h e)) -> adds Q (try_except c h).
Proof.
  intros Hc Hh st. unfold try_except.
  destruct (Hc st) as (w & evs & E & HQ).
  destruct (c st) as [st1 [a|e]]; simpl in E; subst st1.
  - exists w, evs. auto.
  - destruct (Hh e (mkState w (allowed st) (stdin st) (trace st ++ evs)))
      as (w' & evs' & E' & HQ').
    exists w', (evs ++ evs'). simpl in E'. rewrite E', app_assoc, forallb_app, HQ, HQ'.
    auto.
Qed.

End Adds.

Create HintDb adds.
#[export] Hint Resolve adds_ret adds_raise adds_pure adds_emit adds_call
  adds_sleep_value adds_bind adds_try : adds.

(** Applies the rules above along the structure of a computation. *)
Ltac adds_steps :=
  repeat match goal with
         | |- adds _ (if ?b then _ else _) => destruct b
         | |- adds _ (match ?x with _ => _ end) => destruct x
         | |- adds _ (bind _ _) => apply adds_bind; [| intros ?]
         | |- adds _ (try_except _ _) => apply adds_try; [| intros ?]
         | |- adds _ (ret _) => apply adds_ret
         | |- adds _ (raise _) => apply adds_raise
         | |- adds _ (pure _) => apply adds_pure
         | |- adds _ (print _) => apply adds_emit; reflexivity
         | |- adds _ (sleep_const _) => apply adds_emit; reflexivity
         | |- adds _ (sleep_value _) => apply adds_sleep_value; reflexivity
         | |- adds _ (call _ _) => apply adds_call; reflexivity
         | |- adds _ quit => apply adds_call; reflexivity
         end.

(** ** The executor *)

Section Executor.
Context {env : Env}.

(** The action of a step adds no header and no error line. *)
Lemma run_action_quiet action by_ selector value :
  adds quiet (run_action action by_ selector value).
Proof. unfold run_action, find_element. adds_steps. Qed.

(** A turn of the loop on a dict: the header, the action, and on an
    exception the error line and [false]. *)
Lemma run_step_object n i m st :
  run_step n i (JObj m) st =
  match run_action (field m "action" JNull) (field m "by" JNull)
                   (field m "selector" JNull) (field m "value" (JStr ""))
                   (logged st [header n i m]) with
  | (st', Ok _) => (st', Ok true)
  | (st', Raise e) => (logged st' [EPrint (MStepError i e)], Ok false)
  end.
Proof.
  unfold run_step. rewrite !py_get_object.
  unfold bind, pure, print, emit, try_except, ret, logged, header. simpl.
  destruct (run_action _ _ _ _ _) as [st' [[]|e]]; reflexivity.
Qed.

(** A step that is not a dict has no [get]: the exception leaves the
    loop, before anything is printed. *)
Lemma run_step_not_object n i step st :
  is_object step = false ->
  run_step n i step st = (st, Raise (Exn "AttributeError" [JStr "get"])).
Proof. destruct step; simpl; intros H; try discriminate; reflexivity. Qed.

(** What a turn of the loop on a dict adds to the trace. *)
Lemma run_step_events n i m st :
  exists w evs,
    forallb quiet evs = true /\
    (run_step n i (JObj m) st
     = (mkState w (allowed st) (stdin st) (trace st ++ header n i m :: evs), Ok true)
     \/ exists e,
       run_step n i (JObj m) st
       = (mkState w (allowed st) (stdin st)
            (trace st ++ header n i m :: evs ++ [EPrint (MStepError i e)]),
          Ok false)).
Proof.
  rewrite run_step_object.
  destruct (run_action_quiet (field m "action" JNull) (field m "by" JNull)
              (field m "selector" JNull) (field m "value" (JStr ""))
              (logged st [header n i m])) as (w & evs & E & HQ).
  exists w, evs. split; [exact HQ|].
  destruct (run_action _ _ _ _ _) as [st' [[]|e]]; simpl in E; subst st'.
  - left. simpl. rewrite <- app_assoc. reflexivity.
  - right. exists e. unfold logged. simpl. rewrite <- !app_assoc. reflexivity.
Qed.

(** The loop after a prefix of steps that all succeeded. *)
Lemma run_steps_app n i pre rest st st1 :
  run_steps n i pre st = (st1, Ok true) ->
  run_steps n i (pre ++ rest) st = run_steps n (i + length pre) rest st1.
Proof.
  revert i st. induction pre as [|step pre IH]; intros i st H; simpl in *.
  - unfold ret in H. inversion H. subst. rewrite Nat.add_0_r. reflexivity.
  - unfold bind in *. destruct (run_step n i step st) as [st2 [[|]|e]].
    + rewrite (IH _ _ H). f_equal. lia.
    + discriminate.
    + discriminate.
Qed.

(** What the loop adds to the trace when it returns: the headers of the
    steps attempted, numbered from [i] on without a gap, and an error
    line exactly when it returns [false], for the last step attempted. *)
Lemma run_steps_events n steps : forall i st st' b,
  run_steps n i steps st = (st', Ok b) ->
  exists w evs k,
    st' = mkState w (allowed st) (stdin st) (trace st ++ evs)
    /\ attempted evs = seq i k
    /\ k <= length steps
    /\ (if b then k = length steps /\ failed evs = []
        else 1 <= k /\ failed evs = [i + k - 1]).
Proof.
  induction steps as [|step rest IH]; intros i st st' b H; simpl in H.
  - unfold ret in H. inversion H. subst.
    exists (world st'), [], 0. destruct st'. simpl. rewrite app_nil_r. auto.
  - destruct (is_object step) eqn:Hobj.
    + destruct step; try discriminate.
      destruct (run_step_events n i m st) as (w & evs & HQ & [E | [e E]]);
        unfold bind in H; rewrite E in H.
      * apply IH in H. destruct H as (w' & evs' & k & -> & Ha & Hk & Hb). simpl.
        exists w', (header n i m :: evs ++ evs'), (S k).
        assert (Hatt : attempted (header n i m :: evs ++ evs') = seq i (S k)).
        { simpl. rewrite attempted_app, (quiet_attempted _ HQ), Ha. reflexivity. }
        assert (Hfail : failed (header n i m :: evs ++ evs') = failed evs').
        { simpl. rewrite failed_app, (quiet_failed _ HQ). reflexivity. }
        rewrite Hfail. split; [|split; [exact Hatt|split; [simpl; lia|]]].
        -- rewrite <- app_assoc. reflexivity.
        -- destruct b.
           ++ destruct Hb as [-> Hf]. split; [reflexivity | exact Hf].
           ++ destruct Hb as [Hk1 Hf]. split; [lia|]. rewrite Hf. f_equal. lia.
      * unfold ret in H. inversion H. subst.
        exists w, (header n i m :: evs ++ [EPrint (MStepError i e)]), 1.
        split; [reflexivity|]. split; [|split; [simpl; lia|split; [lia|]]].
        -- simpl. rewrite attempted_app, (quiet_attempted _ HQ). reflexivity.
        -- simpl. rewrite failed_app, (quiet_failed _ HQ). simpl. f_equal. lia.
    + unfold bind in H. rewrite (run_step_not_object _ _ _ _ Hobj) in H. discriminate.
Qed.

(** On dicts the loop never raises. *)
Lemma run_steps_objects_return n steps : forall i st,
  forallb is_object steps = true ->
  exists st' b, run_steps n i steps st = (st', Ok b).
Proof.
  induction steps as [|step rest IH]; intros i st H; simpl in *.
  - eexists _, _. reflexivity.
  - apply andb_true_iff in H. destruct H as [Hobj H].
    destruct step; try discriminate.
    unfold bind.
    destruct (run_step_events n i m st) as (w & evs & _ & [E | [e E]]); rewrite E.
    + apply IH, H.
    + eexists _, _. reflexivity.
Qed.

End Executor.

(** ** Fail-stop execution *)

Section FailStop.
Context {env : Env}.

(** C2.  When the steps before step [k] all complete and the action of
    step [k] raises, [execute_plan] returns [False] in the state the
    failing action left, with the error line of step [k] printed last:
    the headers of steps 1..k were printed, in order; step [k] is the only
    one reported as failed; and nothing that follows step [k] in the plan
    has any part in the outcome. *)
Theorem C2_execution_is_fail_stop (pre post : list json) m st st1 st2 e :
  let plan := pre ++ JObj m :: post in
  let k := S (length pre) in
  run_steps (length plan) 1 pre st = (st1, Ok true) ->
  run_action (field m "action" JNull) (field m "by" JNull)
             (field m "selector" JNull) (field m "value" (JStr ""))
             (logged st1 [header (length plan) k m]) = (st2, Raise e) ->
  execute_plan (JArr plan) st = (logged st2 [EPrint (MStepError k e)], Ok false)
  /\ exists evs,
       trace (logged st2 [EPrint (MStepError k e)]) = trace st ++ evs
       /\ attempted evs = seq 1 k
       /\ failed evs = [k].
Proof.
  intros plan k Hpre Hact. split.
  - unfold execute_plan, bind at 1, pure. cbn [py_iter].
    change (run_steps (length plan) 1 (pre ++ JObj m :: post) st
            = (logged st2 [EPrint (MStepError k e)], Ok false)).
    rewrite (run_steps_app _ _ _ _ _ _ Hpre). cbn [run_steps Nat.add].
    unfold bind. rewrite run_step_object. fold k. rewrite Hact. reflexivity.
  - destruct (run_steps_events _ _ _ _ _ _ Hpre) as (w & evs1 & k1 & E1 & Ha & _ & Hk & Hf).
    destruct (run_action_quiet (field m "action" JNull) (field m "by" JNull)
                (field m "selector" JNull) (field m "value" (JStr ""))
                (logged st1 [header (length plan) k m])) as (w2 & evs2 & E2 & HQ).
    rewrite Hact in E2. simpl in E2. subst st1 st2 k1. simpl.
    exists (evs1 ++ header (length plan) k m :: evs2 ++ [EPrint (MStepError k e)]).
    split; [|split].
    + rewrite <- !app_assoc. reflexivity.
    + rewrite attempted_app, Ha. simpl.
      rewrite attempted_app, (quiet_attempted _ HQ). simpl.
      change (seq 1 (length pre) ++ [k]) with (seq 1 (length pre) ++ [1 + length pre]).
      rewrite <- seq_S. reflexivity.
    + rewrite failed_app, Hf. simpl.
      rewrite failed_app, (quiet_failed _ HQ). reflexivity.
Qed.

(** The loop on steps whose action is none of the five kinds. *)
Lemma run_steps_unrecognized n (steps : list json) :
  forallb unrecognized_step steps = true ->
  forall i rest (st : @state env),
    run_steps n i (steps ++ rest) st
    = run_steps n (i + length steps) rest (logged st (skipped_lines n i steps)).
Proof.
  induction steps as [|step more IH]; intros H i rest st.
  - simpl. rewrite logged_nil, Nat.add_0_r. reflexivity.
  - simpl in H. apply andb_true_iff in H. destruct H as [Hstep H].
    destruct step as [| | | | | |m]; try discriminate. simpl in Hstep.
    apply negb_true_iff in Hstep.
    cbn [app run_steps skipped_lines length].
    unfold bind at 1. rewrite run_step_object.
    unfold recognized in Hstep.
    repeat (apply orb_false_iff in Hstep; destruct Hstep as [Hstep ?]).
    unfold run_action.
    repeat match goal with E : eq_str _ _ = false |- _ => rewrite E; clear E end.
    simpl.
    match goal with
    | |- run_steps _ _ _ ?s = _ =>
        replace s with
          (logged st [header n i m; EPrint (MUnknownAction (field m "action" JNull))])
          by (unfold logged; simpl; rewrite <- app_assoc; reflexivity)
    end.
    rewrite (IH H), logged_logged. f_equal. lia.
Qed.

Lemma skipped_lines_read n (steps : list json) :
  forallb unrecognized_step steps = true ->
  forall i,
    forallb is_print (@skipped_lines env n i steps) = true
    /\ attempted (@skipped_lines env n i steps) = seq i (length steps)
    /\ failed (@skipped_lines env n i steps) = [].
Proof.
  induction steps as [|step more IH]; intros H i; [repeat split|].
  simpl in H. apply andb_true_iff in H. destruct H as [Hstep H].
  destruct step as [| | | | | |m]; try discriminate.
  destruct (IH H (S i)) as (Hp & Ha & Hf).
  cbn [skipped_lines]. unfold header. simpl. rewrite Ha. auto.
Qed.

(** C10.  Steps whose [action] is none of the five kinds do not stop
    the executor.  When the steps before them complete, [execute_plan]
    prints, for each of them in turn, its header and the unknown-action
    line, touching neither the browser nor the clock, and goes on with
    the step that follows, numbered as in the plan; none of them is
    reported as failed.  A plan made of such steps only returns [True]
    after the two lines of each. *)
Theorem C10_unrecognized_steps_are_skipped (pre steps post : list json)
    (st st1 : @state env) :
  let plan := pre ++ steps ++ post in
  let first := S (length pre) in
  let evs := skipped_lines (length plan) first steps in
  forallb unrecognized_step steps = true ->
  run_steps (length plan) 1 pre st = (st1, Ok true) ->
  execute_plan (JArr plan) st
  = run_steps (length plan) (first + length steps) post (logged st1 evs)
  /\ forallb is_print evs = true
  /\ attempted evs = seq first (length steps)
  /\ failed evs = []
  /\ execute_plan (JArr steps) st
     = (logged st (skipped_lines (length steps) 1 steps), Ok true)
  /\ attempted (@skipped_lines env (length steps) 1 steps) = seq 1 (length steps).
Proof.
  intros plan first evs H Hpre.
  destruct (skipped_lines_read (length plan) steps H first) as (Hp & Ha & Hf).
  destruct (skipped_lines_read (length steps) steps H 1) as (_ & Ha1 & _).
  split; [|split; [exact Hp|split; [exact Ha|split; [exact Hf|split; [|exact Ha1]]]]].
  - unfold execute_plan, bind at 1, pure. cbn [py_iter].
    change (run_steps (length plan) 1 (pre ++ steps ++ post) st
            = run_steps (length plan) (first + length steps) post (logged st1 evs)).
    rewrite (run_steps_app _ _ _ _ _ _ Hpre).
    apply run_steps_unrecognized, H.
  - unfold execute_plan, bind at 1, pure. cbn [py_iter].
    pose proof (run_steps_unrecognized (length steps) steps H 1 [] st) as E.
    rewrite app_nil_r in E. rewrite E. reflexivity.
Qed.

End FailStop.

(** Scenario D in the simulated browser: the second of three steps (a
    fill on an element that is not there) fails. *)
Lemma C2_second_of_three_fails :
  let st := Sim.start (Sim.browsing "https://example.com") [] in
  exists st1 st2 e,
    @run_steps Sim.env 3 1 [Plans.click "#go"] st = (st1, Ok true)
    /\ @run_action Sim.env (JStr "fill") (JStr "css") (JStr "#missing") (JStr "x")
         (logged st1 [EPrint (MStep 2 3 (JStr "fill") (JStr "css")
                                (JStr "#missing") (JStr "x"))])
       = (st2, Raise e)
    /\ e = Exn "NoSuchElementException" [JStr "#missing"]
    /\ execute_plan (JArr Plans.second_fails) st
       = (logged st2 [EPrint (MStepError 2 e)], Ok false).
Proof.
  intros st. eexists. eexists. eexists.
  split; [reflexivity|].
  split; [reflexivity|].
  split; [reflexivity|].
  refine (proj1 (@C2_execution_is_fail_stop Sim.env [Plans.click "#go"]
                   [Plans.click "#later"]
                   [("action", JStr "fill"); ("by", JStr "css");
                    ("selector", JStr "#missing"); ("value", JStr "x")]
                   st _ _ _ _ _)).
  - reflexivity.
  - reflexivity.
Defined.

(** A plan of four steps in the simulated browser, the second and the
    third of an unknown kind: both are skipped, the clicks around them
    are made, and the plan succeeds; and a plan of two such steps. *)
Lemma C10_two_dances :
  let st := Sim.start (Sim.browsing "https://example.com") [] in
  let plan := [Plans.click "#a"; Plans.dance; Plans.dance; Plans.click "#go"] in
  let after := @execute_plan Sim.env (JArr plan) st in
  forallb unrecognized_step [Plans.dance; Plans.dance] = true
  /\ snd after = Ok true
  /\ Sim.clicked (world (fst after)) = ["#a"; "#go"]
  /\ attempted (trace (fst after)) = [1; 2; 3; 4]
  /\ (exists st1,
        @run_steps Sim.env 4 1 [Plans.click "#a"] st = (st1, Ok true)
        /\ after = run_steps 4 4 [Plans.click "#go"]
                     (logged st1 (skipped_lines 4 2 [Plans.dance; Plans.dance])))
  /\ @execute_plan Sim.env (JArr [Plans.dance; Plans.dance]) st
     = (logged st [EPrint (MStep 1 2 (JStr "dance") JNull JNull (JStr ""));
                   EPrint (MUnknownAction (JStr "dance"));
                   EPrint (MStep 2 2 (JStr "dance") JNull JNull (JStr ""));
                   EPrint (MUnknownAction (JStr "dance"))], Ok true).
Proof.
  intros st plan after.
  pose proof (@C10_unrecognized_steps_are_skipped Sim.env [Plans.click "#a"]
                [Plans.dance; Plans.dance] [Plans.click "#go"] st
                (fst (@run_steps Sim.env 4 1 [Plans.click "#a"] st))
                eq_refl eq_refl) as (Hgo & _ & _ & _ & Honly & _).
  split; [reflexivity|]. split; [reflexivity|]. split; [reflexivity|].
  split; [reflexivity|]. split; [|exact Honly].
  eexists. split; [reflexivity|]. exact Hgo.
Defined.

(** ** Submit and navigation steps *)

Section Steps.
Context {env : Env}.

(** C8.  On a submit step whose element resolves, the executor calls
    [submit] on the element.  When [submit] returns, the step succeeds.
    When [submit] raises, whatever the exception, the executor calls
    [click] on the same element, in the world [submit] left; the step
    succeeds when that click returns and fails with the click's exception
    when it raises. *)
Theorem C8_submit_falls_back_to_click n i m key b st w1 elem :
  field m "action" JNull = JStr "submit" ->
  field m "by" JNull = JStr key ->
  by_map key = Some b ->
  driver_find_element env b (field m "selector" JNull) (world st) = (w1, Ok elem) ->
  let found := [header n i m; EFind b (field m "selector" JNull); ESubmit elem] in
  match element_submit env elem w1 with
  | (w2, Ok _) =>
      run_step n i (JObj m) st
      = (mkState w2 (allowed st) (stdin st)
           (trace st ++ found ++ [ESleep 0.5%float]), Ok true)
  | (w2, Raise _) =>
      match element_click env elem w2 with
      | (w3, Ok _) =>
          run_step n i (JObj m) st
          = (mkState w3 (allowed st) (stdin st)
               (trace st ++ found ++ [EClick elem; ESleep 0.5%float]), Ok true)
      | (w3, Raise e) =>
          run_step n i (JObj m) st
          = (mkState w3 (allowed st) (stdin st)
               (trace st ++ found ++ [EClick elem; EPrint (MStepError i e)]), Ok false)
      end
  end.
Proof.
  intros Hact Hby Hmap Hfind found. subst found.
  rewrite run_step_object. unfold run_action, find_element.
  rewrite Hact, Hby, Hmap. simpl.
  unfold bind, call, try_except, sleep_const, emit, ret, logged. simpl.
  rewrite Hfind. simpl.
  destruct (element_submit env elem w1) as [w2 [[]|e2]]; simpl.
  - rewrite <- !app_assoc. reflexivity.
  - destruct (element_click env elem w2) as [w3 [[]|e3]]; simpl;
      rewrite <- !app_assoc; reflexivity.
Qed.

Lemma first_disallowed_skips allowed_now m rest :
  truthy (field m "value" (JStr "")) = false ->
  first_disallowed allowed_now (JObj m :: rest) = first_disallowed allowed_now rest.
Proof.
  intros H. simpl. fold (field m "action" JNull). fold (field m "value" (JStr "")).
  rewrite H. destruct (eq_str _ _); reflexivity.
Qed.

(** The gate's verdict on a list of steps, one step taken out of the
    middle, when that step is one the gate passes over. *)
Lemma first_disallowed_without allowed_now pre m post :
  first_disallowed allowed_now (JObj m :: post) = first_disallowed allowed_now post ->
  first_disallowed allowed_now (pre ++ JObj m :: post)
  = first_disallowed allowed_now (pre ++ post).
Proof.
  intros H. induction pre as [|step pre IH]; [exact H|].
  simpl. destruct (py_get step "action" JNull) as [action|e]; simpl; [|reflexivity].
  destruct (eq_str action "navigate"); [|exact IH].
  destruct (py_get step "value" (JStr "")) as [nav_url|e]; simpl; [|reflexivity].
  destruct (truthy nav_url); [|exact IH].
  destruct (negb _); [reflexivity | exact IH].
Qed.

(** C9.  A navigation step whose [value] is missing or is the empty
    string is passed over by the navigation gate: the gate's verdict on
    the plan is its verdict on the plan without that step, and a plan
    made of that step alone is let through.  When the executor reaches
    the step, the URL check fails: the executor prints the step's header
    and the error line, returns [False], and touches nothing else. *)
Theorem C9_navigate_without_target (pre post : list json) m allowed_now st st1 :
  let plan := pre ++ JObj m :: post in
  let k := S (length pre) in
  field m "action" JNull = JStr "navigate" ->
  assoc "value" m = None \/ assoc "value" m = Some (JStr "") ->
  navigation_gate allowed_now (JArr plan) = navigation_gate allowed_now (JArr (pre ++ post))
  /\ navigation_gate allowed_now (JArr [JObj m]) = Ok None
  /\ (run_steps (length plan) 1 pre st = (st1, Ok true) ->
      execute_plan (JArr plan) st
      = (logged st1 [header (length plan) k m;
                     EPrint (MStepError k
                               (Exn "ValueError" [JStr "Invalid URL in navigate action."]))],
         Ok false)).
Proof.
  intros plan k Hact Hval.
  assert (Hfield : field m "value" (JStr "") = JStr "").
  { unfold field. destruct Hval as [-> | ->]; reflexivity. }
  assert (Hskip : forall rest,
             first_disallowed allowed_now (JObj m :: rest)
             = first_disallowed allowed_now rest).
  { intros rest. apply first_disallowed_skips. rewrite Hfield. reflexivity. }
  split; [|split].
  - unfold navigation_gate. simpl. apply first_disallowed_without, Hskip.
  - unfold navigation_gate. cbn [py_iter res_bind]. rewrite Hskip. reflexivity.
  - intros Hpre. unfold execute_plan, bind at 1, pure. cbn [py_iter].
    change (run_steps (length plan) 1 (pre ++ JObj m :: post) st
            = (logged st1 [header (length plan) k m;
                           EPrint (MStepError k
                             (Exn "ValueError" [JStr "Invalid URL in navigate action."]))],
               Ok false)).
    rewrite (run_steps_app _ _ _ _ _ _ Hpre). cbn [run_steps Nat.add].
    unfold bind. rewrite run_step_object. fold k.
    unfold run_action. rewrite Hact, Hfield. simpl.
    unfold bind, pure. rewrite (validators_url_empty env). simpl.
    rewrite logged_logged. reflexivity.
Qed.

End Steps.

(** A submit on an element that is not a form, in the simulated
    browser: [submit] raises, the click goes through, the step succeeds. *)
Lemma C8_submit_on_a_button :
  let st := Sim.start (Sim.browsing "https://example.com") [] in
  @run_step Sim.env 1 1 (Plans.submit "#send") st
  = (@mkState Sim.env
       (Sim.mkWorld "" "https://example.com" [] ["#send"] [] true)
       ALLOWED_DOMAINS []
       [EPrint (MStep 1 1 (JStr "submit") (JStr "css") (JStr "#send") (JStr ""));
        EFind CSS_SELECTOR (JStr "#send"); ESubmit "#send"; EClick "#send";
        ESleep 0.5%float],
     Ok true).
Proof.
  intros st.
  exact (@C8_submit_falls_back_to_click Sim.env 1 1
           [("action", JStr "submit"); ("by", JStr "css"); ("selector", JStr "#send")]
           "css" CSS_SELECTOR st (Sim.browsing "https://example.com") "#send"
           eq_refl eq_refl eq_refl eq_refl).
Defined.

(** A plan whose second step navigates nowhere, in the simulated
    browser: the gate lets it through and the executor stops there,
    after the first click and before the second. *)
Lemma C9_second_step_navigates_nowhere :
  let st := Sim.start (Sim.browsing "https://example.com") [] in
  let plan := [Plans.click "#go"; Plans.navigate_nowhere; Plans.click "#later"] in
  @navigation_gate Sim.env ALLOWED_DOMAINS (JArr plan) = Ok None
  /\ exists st1,
       @run_steps Sim.env 3 1 [Plans.click "#go"] st = (st1, Ok true)
       /\ execute_plan (JArr plan) st
          = (logged st1
               [EPrint (MStep 2 3 (JStr "navigate") JNull JNull (JStr ""));
                EPrint (MStepError 2
                          (Exn "ValueError" [JStr "Invalid URL in navigate action."]))],
             Ok false).
Proof.
  intros st plan.
  split; [reflexivity|].
  eexists. split; [reflexivity|].
  refine (proj2 (proj2 (@C9_navigate_without_target Sim.env [Plans.click "#go"]
                          [Plans.click "#later"] [("action", JStr "navigate")]
                          ALLOWED_DOMAINS st _ eq_refl (or_introl eq_refl))) _).
  reflexivity.
Defined.

(** ** The navigation gate and the approval gate *)

Section Gates.
Context {env : Env}.

Lemma mem_In x l : PyStr.mem x l = true <-> In x l.
Proof.
  unfold PyStr.mem. rewrite existsb_exists. split.
  - intros (y & Hy & E). apply String.eqb_eq in E. subst. exact Hy.
  - intros H. exists x. split; [exact H | apply String.eqb_refl].
Qed.

Lemma mem_not_In x l : PyStr.mem x l = false <-> ~ In x l.
Proof.
  rewrite <- mem_In. destruct (PyStr.mem x l); split; intros H; congruence.
Qed.

(** A domain the gate names is not in the allowlist. *)
Lemma first_disallowed_sound allowed_now steps d :
  first_disallowed allowed_now steps = Ok (Some d) -> ~ In d allowed_now.
Proof.
  induction steps as [|step rest IH]; simpl; [discriminate|].
  destruct (py_get step "action" JNull) as [action|e]; simpl; [|discriminate].
  destruct (eq_str action "navigate"); [|exact IH].
  destruct (py_get step "value" (JStr "")) as [nav_url|e]; simpl; [|discriminate].
  destruct (truthy nav_url); [|exact IH].
  destruct (negb _) eqn:E; [|exact IH].
  intros H. inversion H. subst d. apply mem_not_In, negb_true_iff, E.
Qed.

(** The gate lets a plan through only after calling [get] on every
    step: all of them are dicts. *)
Lemma first_disallowed_pass_objects allowed_now steps :
  first_disallowed allowed_now steps = Ok None -> forallb is_object steps = true.
Proof.
  induction steps as [|step rest IH]; simpl; [reflexivity|].
  destruct step; simpl; try discriminate.
  destruct (eq_str _ "navigate"); [|exact IH].
  destruct (truthy _); [|exact IH].
  destruct (negb _); [discriminate | exact IH].
Qed.

(** The gate's check on one dict. *)
Lemma first_disallowed_object allowed_now m rest :
  first_disallowed allowed_now (JObj m :: rest) =
  if eq_str (field m "action" JNull) "navigate" then
    if truthy (field m "value" (JStr "")) then
      if negb (PyStr.mem (get_domain_from_url (field m "value" (JStr ""))) allowed_now)
      then Ok (Some (get_domain_from_url (field m "value" (JStr ""))))
      else first_disallowed allowed_now rest
    else first_disallowed allowed_now rest
  else first_disallowed allowed_now rest.
Proof. reflexivity. Qed.

(** A navigation step with a target outside the allowlist, anywhere in
    the plan: the gate names a domain, or raises before reaching it. *)
Lemma first_disallowed_veto allowed_now pre m post :
  field m "action" JNull = JStr "navigate" ->
  truthy (field m "value" (JStr "")) = true ->
  ~ In (get_domain_from_url (field m "value" (JStr ""))) allowed_now ->
  (exists d, first_disallowed allowed_now (pre ++ JObj m :: post) = Ok (Some d))
  \/ (forallb is_object pre = false
      /\ exists e, first_disallowed allowed_now (pre ++ JObj m :: post) = Raise e).
Proof.
  intros Hact Hval Hdom. apply mem_not_In in Hdom.
  induction pre as [|step pre IH].
  - left. simpl app. rewrite first_disallowed_object, Hact. simpl eq_str.
    rewrite Hval, Hdom. simpl. eauto.
  - destruct step as [| | | | |l|m0];
      try (right; split; [reflexivity | eexists; reflexivity]).
    simpl app. rewrite first_disallowed_object.
    assert (IH' :
      (exists d, first_disallowed allowed_now (pre ++ JObj m :: post) = Ok (Some d))
      \/ (forallb is_object (JObj m0 :: pre) = false
          /\ exists e, first_disallowed allowed_now (pre ++ JObj m :: post) = Raise e))
      by exact IH.
    destruct (eq_str (field m0 "action" JNull) "navigate"); [|exact IH'].
    destruct (truthy (field m0 "value" (JStr ""))); [|exact IH'].
    destruct (negb (PyStr.mem _ allowed_now)); [left; eauto | exact IH'].
Qed.

(** C1, as the code has it.  A plan holding, at any position, a
    navigation step with a non-empty [value] whose normalized domain is
    not in the current allowlist is never offered for approval and none
    of its steps is attempted: after showing the plan, [main] either
    names a disallowed domain, refuses and closes the browser, reading
    no input; or, when an earlier step is not a dict, it raises on that
    step's [get], having done nothing but show the plan. *)
Theorem C1_navigation_gate_vetoes_the_plan (pre post : list json) m st :
  field m "action" JNull = JStr "navigate" ->
  truthy (field m "value" (JStr "")) = true ->
  ~ In (get_domain_from_url (field m "value" (JStr ""))) (allowed st) ->
  let plan := JArr (pre ++ JObj m :: post) in
  let shown := [EPrint MPlanBegin; EPrint (MPlan plan); EPrint MPlanEnd] in
  (exists d,
      ~ In d (allowed st)
      /\ review_and_run plan st
         = (mkState (fst (driver_quit env (world st))) (allowed st) (stdin st)
              (trace st ++ shown ++ [EPrint (MDisallowed d); EPrint MRefusing; EQuit]),
            snd (driver_quit env (world st))))
  \/ (forallb is_object pre = false
      /\ exists e, review_and_run plan st = (logged st shown, Raise e)).
Proof.
  intros Hact Hval Hdom plan shown.
  destruct (first_disallowed_veto (allowed st) pre m post Hact Hval Hdom)
    as [[d Hd] | [Hobj [e He]]].
  - left. exists d. split; [exact (first_disallowed_sound _ _ _ Hd)|].
    unfold review_and_run, bind, print, emit, get_allowed, pure, quit, call. simpl.
    unfold navigation_gate. simpl. rewrite Hd. simpl.
    destruct (driver_quit env (world st)) as [w r]. simpl.
    rewrite <- !app_assoc. reflexivity.
  - right. split; [exact Hobj|]. exists e.
    unfold review_and_run, bind, print, emit, get_allowed, pure, logged. simpl.
    unfold navigation_gate. simpl. rewrite He. simpl.
    rewrite <- !app_assoc. reflexivity.
Qed.

(** C3, as the code has it.  When a plan reaches the approval prompt
    and the line read there, stripped and lower-cased, is not "yes",
    [main] prints that the plan is not approved and closes the browser:
    no step is attempted and closing the session is the only call made
    on the browser. *)
Theorem C3_unapproved_plan_is_not_run plan st line rest :
  navigation_gate (allowed st) plan = Ok None ->
  stdin st = line :: rest ->
  PyStr.lower (PyStr.strip line) <> "yes" ->
  review_and_run plan st
  = (mkState (fst (driver_quit env (world st))) (allowed st) rest
       (trace st ++ [EPrint MPlanBegin; EPrint (MPlan plan); EPrint MPlanEnd;
                     EInput AskApprove (Some line); EPrint MNotApproved; EQuit]),
     snd (driver_quit env (world st))).
Proof.
  intros Hgate Hin Hno.
  apply String.eqb_neq in Hno.
  unfold review_and_run, bind, print, emit, get_allowed, pure, quit, call, input. simpl.
  rewrite Hgate, Hin. simpl. rewrite Hno. simpl.
  destruct (driver_quit env (world st)) as [w r]. simpl.
  rewrite <- !app_assoc. reflexivity.
Qed.

(** C4, as the code has it.  [ask_openai_for_plan] checks neither the
    action kinds nor the fields of the records: whenever the planner's
    text, stripped and unfenced, decodes as JSON, the decoded value is
    the plan, whatever it holds.  It fails in three ways only, none of
    which looks at a record: the [TypeError] of slicing a page text that
    is [None], the exception of the planner call, passed on as it is,
    and the [RuntimeError] for a text that does not decode.  The
    navigation gate passes over every record whose [action] is not
    "navigate", recognized or not, complete or not. *)
Theorem C4_no_record_validation page_text page_url user_task (st : @state env) :
  (forall t w content plan,
      page_text = Some t ->
      chat_completion env page_url (substring 0 3000 t) user_task (world st)
      = (w, Ok content) ->
      json_loads env (unfence (PyStr.strip content)) = Ok plan ->
      ask_openai_for_plan page_text page_url user_task st
      = (mkState w (allowed st) (stdin st)
           (trace st ++ [EChat page_url (substring 0 3000 t) user_task]),
         Ok plan))
  /\ (forall e,
        snd (ask_openai_for_plan page_text page_url user_task st) = Raise e ->
        (page_text = None
         /\ e = Exn "TypeError" [JStr "'NoneType' object is not subscriptable"])
        \/ (exists t,
              page_text = Some t
              /\ snd (chat_completion env page_url (substring 0 3000 t) user_task
                        (world st)) = Raise e)
        \/ (exists t content cls args,
              page_text = Some t
              /\ snd (chat_completion env page_url (substring 0 3000 t) user_task
                        (world st)) = Ok content
              /\ json_loads env (unfence (PyStr.strip content)) = Raise (Exn cls args)
              /\ e = Exn "RuntimeError"
                       (JStr "Failed to parse JSON from model response."
                        :: JStr (unfence (PyStr.strip content)) :: JStr cls :: args)))
  /\ forall allowed_now m rest,
       eq_str (field m "action" JNull) "navigate" = false ->
       first_disallowed allowed_now (JObj m :: rest)
       = first_disallowed allowed_now rest.
Proof.
  split; [|split].
  - intros t w content plan -> Hchat Hjson.
    unfold ask_openai_for_plan, bind, call, pure, plan_of_reply, parse_plan_text.
    rewrite Hchat, Hjson. reflexivity.
  - intros e. destruct page_text as [t|].
    + unfold ask_openai_for_plan, bind, call, pure, plan_of_reply, parse_plan_text.
      cbv zeta.
      destruct (chat_completion env page_url (substring 0 3000 t) user_task (world st))
        as [w [content|e']] eqn:Hchat; simpl.
      * destruct (json_loads env (unfence (PyStr.strip content)))
          as [plan|[cls args]] eqn:Hjson; [discriminate|].
        intros H. inversion H. subst e. right. right.
        exists t, content, cls, args. rewrite Hchat. repeat split; auto.
      * intros H. inversion H. subst e'. right. left. exists t. rewrite Hchat. split; reflexivity.
    + intros H. inversion H. left. split; reflexivity.
  - intros allowed_now m rest H. simpl. fold (field m "action" JNull).
    rewrite H. reflexivity.
Qed.

(** C6, as the code has it.  On a plan the navigation gate let through,
    [execute_plan] never raises: it returns a boolean and nothing else.
    The steps attempted are 1..k without a gap, as their printed headers
    show.  The boolean is [True] when all the steps were attempted and no
    error line was printed, and [False] when step [k] raised, an error
    line for step [k] being the only one printed. *)
Theorem C6_executor_returns_a_boolean plan allowed_now st :
  navigation_gate allowed_now plan = Ok None ->
  exists steps w evs k b,
    py_iter plan = Ok steps
    /\ execute_plan plan st
       = (mkState w (allowed st) (stdin st) (trace st ++ evs), Ok b)
    /\ attempted evs = seq 1 k
    /\ (if b then k = length steps /\ failed evs = []
        else 1 <= k <= length steps /\ failed evs = [k]).
Proof.
  unfold navigation_gate, execute_plan, bind, pure.
  destruct (py_iter plan) as [steps|e]; simpl; [|discriminate].
  intros Hgate. apply first_disallowed_pass_objects in Hgate.
  destruct (run_steps_objects_return (length steps) steps 1 st Hgate) as (st' & b & E).
  destruct (run_steps_events _ _ _ _ _ _ E) as (w & evs & k & -> & Ha & Hk & Hb).
  exists steps, w, evs, k, b. rewrite E. repeat split; try assumption.
  destruct b.
  - exact Hb.
  - destruct Hb as [Hk1 Hf]. split; [lia|]. rewrite Hf. f_equal. lia.
Qed.

End Gates.

(** ** The gates in the simulated browser *)

(** Scenario B with a step before the navigation: the plan is refused
    for "evil.test", no input is read, nothing is attempted. *)
Lemma C1_evil_test_is_refused :
  let st := Sim.start (Sim.browsing "https://example.com") ["yes"] in
  let plan := JArr [Plans.click "#go"; Plans.navigate "https://evil.test"] in
  ~ In (@get_domain_from_url Sim.env (JStr "https://evil.test")) (allowed st)
  /\ ((exists d,
          ~ In d (allowed st)
          /\ review_and_run plan st
             = (mkState (fst (driver_quit Sim.env (world st))) (allowed st) (stdin st)
                  (trace st
                   ++ [EPrint MPlanBegin; EPrint (MPlan plan); EPrint MPlanEnd]
                   ++ [EPrint (MDisallowed d); EPrint MRefusing; EQuit]),
                snd (driver_quit Sim.env (world st))))
      \/ (forallb is_object [Plans.click "#go"] = false
          /\ exists e,
               review_and_run plan st
               = (logged st [EPrint MPlanBegin; EPrint (MPlan plan); EPrint MPlanEnd],
                  Raise e))).
Proof.
  intros st plan.
  assert (H : ~ In (@get_domain_from_url Sim.env (JStr "https://evil.test")) (allowed st))
    by (apply mem_not_In; reflexivity).
  split; [exact H|].
  exact (@C1_navigation_gate_vetoes_the_plan Sim.env [Plans.click "#go"] []
           [("action", JStr "navigate"); ("value", JStr "https://evil.test")]
           st eq_refl eq_refl H).
Defined.

(** Scenario B as a whole run of [main]: the planner asks for a
    navigation to "evil.test"; the run ends with the approval line still
    unread, no step attempted, the browser on the page it was opened on
    and the session closed. *)
Lemma scenario_B_whole_run :
  let reply := Sim.quoted "[{'action':'navigate','value':'https://evil.test'}]" in
  let after := fst (@main Sim.env (Sim.start (Sim.fresh reply) [""; "go there"; "yes"])) in
  stdin after = ["yes"]
  /\ existsb is_approval_prompt (trace after) = false
  /\ attempted (trace after) = []
  /\ Sim.location (world after) = "https://example.com"
  /\ Sim.session_open (world after) = false.
Proof. repeat split; reflexivity. Qed.

(** A navigation step with the empty string as its target: the
    normalized domain of the target, the empty string, is not in the
    allowlist, and yet the plan is offered for approval and, approved,
    its step is attempted. *)
Lemma C1_empty_target_is_offered_for_approval :
  let st := Sim.start (Sim.browsing "https://example.com") ["yes"] in
  let after := fst (@review_and_run Sim.env (JArr [Plans.navigate ""]) st) in
  ~ In (@get_domain_from_url Sim.env (JStr "")) (allowed st)
  /\ existsb is_approval_prompt (trace after) = true
  /\ attempted (trace after) = [1].
Proof.
  intros st after. split; [apply mem_not_In; reflexivity|].
  split; reflexivity.
Qed.

(** Scenario E: the answer "y" leaves the plan unexecuted. *)
Lemma C3_y_is_not_yes :
  let st := Sim.start (Sim.browsing "https://example.com") ["y"] in
  let plan := JArr [Plans.click "#go"] in
  PyStr.lower (PyStr.strip "y") <> "yes"
  /\ @review_and_run Sim.env plan st
     = (mkState (fst (driver_quit Sim.env (world st))) (allowed st) []
          (trace st ++ [EPrint MPlanBegin; EPrint (MPlan plan); EPrint MPlanEnd;
                        EInput AskApprove (Some "y"); EPrint MNotApproved; EQuit]),
        snd (driver_quit Sim.env (world st))).
Proof.
  intros st plan.
  assert (H : PyStr.lower (PyStr.strip "y") <> "yes") by discriminate.
  split; [exact H|].
  exact (@C3_unapproved_plan_is_not_run Sim.env plan st "y" [] eq_refl eq_refl H).
Defined.

(** The answer " YES ", which is not the token "yes", runs the plan:
    its step is attempted and the element is clicked. *)
Lemma C3_shouted_yes_runs_the_plan :
  let st := Sim.start (Sim.browsing "https://example.com") [" YES "] in
  let after := fst (@review_and_run Sim.env (JArr [Plans.click "#go"]) st) in
  " YES " <> "yes"
  /\ attempted (trace after) = [1]
  /\ Sim.clicked (world after) = ["#go"].
Proof.
  intros st after. split; [discriminate|]. split; reflexivity.
Qed.

(** The planner answers with one record of an unknown kind: the record
    is the plan. *)
Lemma C4_dance_is_a_plan :
  let st := Sim.start (Sim.fresh (Sim.quoted "[{'action':'dance'}]")) [] in
  @ask_openai_for_plan Sim.env (Some "page") "https://example.com" "dance" st
  = (mkState (world st) (allowed st) (stdin st)
       (trace st ++ [EChat "https://example.com" (substring 0 3000 "page") "dance"]),
     Ok (JArr [Plans.dance])).
Proof.
  intros st.
  exact (proj1 (@C4_no_record_validation Sim.env (Some "page") "https://example.com"
                  "dance" st)
           "page" (world st) (Sim.quoted "[{'action':'dance'}]") (JArr [Plans.dance])
           eq_refl eq_refl eq_refl).
Defined.

(** A whole run of [main] on the planner's answer [{'action':'dance'}]
    and on [{'action':'click'}]: validation raises nothing, the plan
    is offered for approval, and the executor is started on it; the
    unknown action is skipped and the run ends in success, the click
    without a selector fails only when the step runs. *)
Lemma C4_invalid_records_reach_the_gates :
  let run reply :=
    fst (@main Sim.env (Sim.start (Sim.fresh reply) [""; "do it"; "yes"])) in
  let dance := run (Sim.quoted "[{'action':'dance'}]") in
  let click := run (Sim.quoted "[{'action':'click'}]") in
  Sim.json_loads (Sim.quoted "[{'action':'dance'}]") = Ok (JArr [Plans.dance])
  /\ existsb is_approval_prompt (trace dance) = true
  /\ attempted (trace dance) = [1]
  /\ failed (trace dance) = []
  /\ Sim.json_loads (Sim.quoted "[{'action':'click'}]") = Ok (JArr [JObj [("action", JStr "click")]])
  /\ existsb is_approval_prompt (trace click) = true
  /\ attempted (trace click) = [1]
  /\ failed (trace click) = [1].
Proof.
  intros run dance click. repeat split; reflexivity.
Qed.

(** A plan the gate lets through, run in the simulated browser. *)
Lemma C6_second_fails_returns_false :
  let st := Sim.start (Sim.browsing "https://example.com") [] in
  @navigation_gate Sim.env ALLOWED_DOMAINS (JArr Plans.second_fails) = Ok None
  /\ exists steps w evs k b,
       py_iter (JArr Plans.second_fails) = Ok steps
       /\ @execute_plan Sim.env (JArr Plans.second_fails) st
          = (mkState w (allowed st) (stdin st) (trace st ++ evs), Ok b)
       /\ attempted evs = seq 1 k
       /\ (if b then k = length steps /\ failed evs = []
           else 1 <= k <= length steps /\ failed evs = [k]).
Proof.
  intros st. split; [reflexivity|].
  exact (@C6_executor_returns_a_boolean Sim.env (JArr Plans.second_fails)
           ALLOWED_DOMAINS st eq_refl).
Defined.

(** Two plans that fail at different steps: what [execute_plan] returns
    is the same value, [False], and tells nothing of the steps; only the
    printed lines differ. *)
Lemma C6_result_hides_the_failing_step :
  let st := Sim.start (Sim.browsing "https://example.com") [] in
  let one := @execute_plan Sim.env (JArr Plans.first_fails) st in
  let two := @execute_plan Sim.env (JArr Plans.second_fails) st in
  snd one = Ok false
  /\ snd two = Ok false
  /\ failed (trace (fst one)) = [1]
  /\ failed (trace (fst two)) = [2].
Proof.
  intros st one two. repeat split; reflexivity.
Qed.

(** ** Domains *)

(** C5 at the address https://exawww.mple.com/.  Its network location,
    "exawww.mple.com", has no leading "www."; [get_domain_from_url]
    removes the "www." inside it and returns "example.com", a member of
    the configured allowlist, so that the navigation gate lets a plan
    through that navigates to that address.  A leading "www." is removed
    as well, and membership itself is equality of strings: a subdomain
    of an allowed domain is not allowed. *)
Theorem C5_www_is_removed_everywhere :
  Sim.urlparse_netloc (JStr "https://exawww.mple.com/") = Ok "exawww.mple.com"
  /\ PyStr.startswith "exawww.mple.com" "www." = false
  /\ @get_domain_from_url Sim.env (JStr "https://exawww.mple.com/") = "example.com"
  /\ In "example.com" ALLOWED_DOMAINS
  /\ @navigation_gate Sim.env ALLOWED_DOMAINS
       (JArr [Plans.navigate "https://exawww.mple.com/"]) = Ok None
  /\ @get_domain_from_url Sim.env (JStr "https://www.example.com/a?b#c") = "example.com"
  /\ @navigation_gate Sim.env ALLOWED_DOMAINS
       (JArr [Plans.navigate "https://sub.example.com/"]) = Ok (Some "sub.example.com").
Proof.
  repeat split; try reflexivity. left. reflexivity.
Qed.

(** ** Code fences *)

Section Fences.
Context {env : Env}.

Lemma append_assoc (a b c : string) : ((a ++ b) ++ c = a ++ (b ++ c))%string.
Proof. induction a as [|x a IH]; simpl; [reflexivity | rewrite IH; reflexivity]. Qed.

(** Nothing is stripped from the right of a text whose end is a
    non-empty text from which nothing is stripped. *)
Lemma rstrip_app s t :
  t <> "" -> PyStr.rstrip t = t -> PyStr.rstrip (s ++ t) = (s ++ t)%string.
Proof.
  intros Ht Hr. induction s as [|a s IH]; simpl.
  - exact Hr.
  - rewrite IH. destruct (s ++ t)%string eqn:E; [|reflexivity].
    destruct s; simpl in E; [congruence | discriminate].
Qed.

Lemma join_cons_char sep c l ls :
  PyStr.join sep (String c l :: ls) = String c (PyStr.join sep (l :: ls)).
Proof. unfold PyStr.join. destruct ls; reflexivity. Qed.

Lemma join_cons_empty sep l ls :
  PyStr.join sep ("" :: l :: ls) = (sep ++ PyStr.join sep (l :: ls))%string.
Proof. reflexivity. Qed.

Lemma removelast_cons {A} (x : A) l :
  l <> [] -> removelast (x :: l) = x :: removelast l.
Proof. destruct l; [congruence | reflexivity]. Qed.

Lemma linebreak_LF c : PyStr.is_linebreak c = false -> Ascii.eqb c PyStr.LF = false.
Proof.
  intros H. destruct (Ascii.eqb_spec c PyStr.LF) as [->|]; [discriminate | reflexivity].
Qed.

(** A text without line boundary is its own single line. *)
Lemma splitlines_one_line s :
  one_line s = true -> s <> "" -> forall a, PyStr.splitlines_from a s = [s].
Proof.
  induction s as [|c s IH]; [congruence|]. intros H _ a. simpl in *.
  apply andb_true_iff in H. destruct H as [Hc H]. apply negb_true_iff in Hc.
  rewrite (linebreak_LF c Hc), andb_false_r, Hc. destruct s as [|c' s'].
  - reflexivity.
  - rewrite IH; [reflexivity | exact H | discriminate].
Qed.

(** The first line of a text ends at its first boundary. *)
Lemma splitlines_first_line first nl rest :
  one_line first = true -> boundary nl = true ->
  PyStr.splitlines_from false (first ++ nl ++ rest)
  = first :: PyStr.splitlines_from (ends_with_CR nl) rest.
Proof.
  intros H Hnl. induction first as [|c f IH].
  - destruct nl as [|b [|d [|x y]]]; try discriminate; simpl in Hnl.
    + simpl. rewrite Hnl. reflexivity.
    + apply andb_true_iff in Hnl. destruct Hnl as [Hb Hd].
      apply Ascii.eqb_eq in Hb. apply Ascii.eqb_eq in Hd. subst. reflexivity.
  - simpl in H. apply andb_true_iff in H. destruct H as [Hc H].
    apply negb_true_iff in Hc.
    change (PyStr.splitlines_from false (String c (f ++ nl ++ rest))
            = String c f :: PyStr.splitlines_from (ends_with_CR nl) rest).
    cbn [PyStr.splitlines_from andb]. rewrite Hc, (IH H). reflexivity.
Qed.

Lemma ends_with_CR_app a b :
  ends_with_CR (a ++ b)
  = match b with
    | "" => ends_with_CR a
    | _ => ends_with_CR b
    end.
Proof.
  induction a as [|c a IH].
  - destruct b; reflexivity.
  - change (ends_with_CR (String c (a ++ b))
            = match b with "" => ends_with_CR (String c a) | _ => ends_with_CR b end).
    cbn [ends_with_CR]. destruct a as [|c' a'].
    + destruct b; reflexivity.
    + destruct b as [|d b']; [exact IH|].
      change ((String c' a' ++ String d b')%string)
        with (String c' (a' ++ String d b')) in *.
      exact IH.
Qed.

(** The lines of a content followed by a boundary and a closing line:
    at least two, and all but the last, joined, give the content with
    its boundaries rewritten. *)
Lemma lines_before_closer nl closer :
  boundary nl = true -> one_line closer = true -> closer <> "" ->
  forall inner a,
    (match inner with "" => a | _ => ends_with_CR inner end)
    && match nl with String c _ => Ascii.eqb c PyStr.LF | "" => false end = false ->
    exists l ls,
      PyStr.splitlines_from a (inner ++ nl ++ closer) = l :: ls
      /\ ls <> []
      /\ PyStr.join PyStr.newline (l :: removelast ls) = relined_from a inner.
Proof.
  intros Hnl Hcl Hne. induction inner as [|c r IH]; intros a Hseam.
  - exists "", [closer]. split; [|split; [discriminate | reflexivity]].
    destruct nl as [|b [|d [|x y]]]; try discriminate; simpl in Hnl.
    + simpl. simpl in Hseam. rewrite Hseam, Hnl.
      rewrite (splitlines_one_line closer Hcl Hne). reflexivity.
    + apply andb_true_iff in Hnl. destruct Hnl as [Hb Hd].
      apply Ascii.eqb_eq in Hb. apply Ascii.eqb_eq in Hd. subst.
      simpl. rewrite andb_false_r.
      rewrite (splitlines_one_line closer Hcl Hne). reflexivity.
  - cbn [ends_with_CR] in Hseam.
    change ((String c r ++ nl ++ closer)%string) with (String c (r ++ nl ++ closer)).
    cbn [PyStr.splitlines_from].
    cbn [relined_from].
    destruct (a && Ascii.eqb c PyStr.LF) eqn:Hswallow.
    + apply andb_true_iff in Hswallow. destruct Hswallow as [_ Hc].
      apply Ascii.eqb_eq in Hc. subst c.
      apply IH. destruct r; [reflexivity | exact Hseam].
    + destruct (PyStr.is_linebreak c) eqn:Hlb.
      * destruct (IH (Ascii.eqb c PyStr.CR)) as (l & ls & E & Hls & Hjoin).
        { destruct r; exact Hseam. }
        exists "", (l :: ls). split; [rewrite E; reflexivity|].
        split; [discriminate|].
        rewrite (removelast_cons l ls Hls), join_cons_empty, Hjoin. reflexivity.
      * destruct (IH false) as (l & ls & E & Hls & Hjoin).
        { destruct r; [reflexivity | exact Hseam]. }
        exists (String c l), ls. split; [rewrite E; reflexivity|].
        split; [exact Hls|]. rewrite join_cons_char, Hjoin. reflexivity.
Qed.

(** A LF that cannot be the second half of a CR LF is read the same
    way after a CR. *)
Lemma relined_from_seam a inner rest :
  joins_as_crlf a (inner ++ rest) = false ->
  relined_from (ends_with_CR a) inner = relined inner.
Proof.
  destruct inner as [|c r]; [reflexivity|]. unfold joins_as_crlf, relined.
  destruct (ends_with_CR a); [|reflexivity]. simpl. intros H. rewrite H. reflexivity.
Qed.

Lemma decoded_parse_plan_text text :
  decoded (parse_plan_text text) = decoded (json_loads env (unfence text)).
Proof.
  unfold parse_plan_text. destruct (json_loads env (unfence text)) as [v|[cls args]];
    reflexivity.
Qed.

(** A content whose only boundaries are LF is left as it is. *)
Lemma relined_lf_only inner : lf_only inner = true -> relined inner = inner.
Proof.
  unfold relined. induction inner as [|c r IH]; [reflexivity|]. simpl.
  intros H. apply andb_true_iff in H. destruct H as [Hc Hr].
  destruct (PyStr.is_linebreak c) eqn:Hlb; simpl in Hc.
  - apply Ascii.eqb_eq in Hc. subst c. simpl. rewrite (IH Hr). reflexivity.
  - rewrite (IH Hr). reflexivity.
Qed.

(** C7, as the code has it.  Take a planner text made of a first line
    that opens a fence, a content and a non-empty last line, set apart
    by line boundaries of any kind, where the content does not start
    with a fence once stripped and decodes to the same plan once
    stripped as it does with its line boundaries rewritten to LF.  The
    validator drops the first and the last line, whatever they hold,
    and decodes the content with its boundaries rewritten: the plan it
    gives is the plan it gives on the content without the fence.  (A CR
    before a LF is one boundary: the pieces are to be cut so that no
    such pair lies across a cut.) *)
Theorem C7_fenced_text_parses_as_its_content nl1 nl2 tag inner last :
  boundary nl1 = true -> boundary nl2 = true ->
  joins_as_crlf nl1 (inner ++ nl2) = false ->
  joins_as_crlf (nl1 ++ inner) nl2 = false ->
  one_line tag = true ->
  one_line last = true -> last <> "" -> PyStr.rstrip last = last ->
  PyStr.startswith (PyStr.strip inner) "```" = false ->
  decoded (json_loads env (relined inner)) = decoded (json_loads env (PyStr.strip inner)) ->
  unfence (PyStr.strip (fence_with nl1 nl2 tag inner last)) = relined inner
  /\ decoded (plan_of_reply (fence_with nl1 nl2 tag inner last))
     = decoded (plan_of_reply inner).
Proof.
  intros Hnl1 Hnl2 Hseam1 Hseam2 Htag Hlast Hne Hrs Hstart Hdecode.
  assert (Hs : PyStr.strip (fence_with nl1 nl2 tag inner last)
               = fence_with nl1 nl2 tag inner last).
  { unfold PyStr.strip.
    replace (PyStr.lstrip (fence_with nl1 nl2 tag inner last))
      with (fence_with nl1 nl2 tag inner last) by reflexivity.
    replace (fence_with nl1 nl2 tag inner last)
      with (("```" ++ tag ++ nl1 ++ inner ++ nl2) ++ last)%string
      by (unfold fence_with; rewrite !append_assoc; reflexivity).
    apply rstrip_app; assumption. }
  assert (Hu : unfence (fence_with nl1 nl2 tag inner last) = relined inner).
  { assert (Hst : PyStr.startswith (fence_with nl1 nl2 tag inner last) "```" = true).
    { unfold PyStr.startswith, fence_with. simpl.
      destruct (tag ++ _)%string; reflexivity. }
    unfold unfence. rewrite Hst.
    destruct (lines_before_closer nl2 last Hnl2 Hlast Hne inner (ends_with_CR nl1))
      as (l & ls & E & Hls & Hjoin).
    { unfold joins_as_crlf in Hseam2. rewrite ends_with_CR_app in Hseam2.
      exact Hseam2. }
    assert (Hlines : PyStr.splitlines (fence_with nl1 nl2 tag inner last)
                     = ("```" ++ tag)%string :: l :: ls).
    { unfold PyStr.splitlines, fence_with.
      replace ("```" ++ tag ++ nl1 ++ inner ++ nl2 ++ last)%string
        with (("```" ++ tag) ++ nl1 ++ inner ++ nl2 ++ last)%string
        by (rewrite !append_assoc; reflexivity).
      rewrite (splitlines_first_line ("```" ++ tag) nl1 _ Htag Hnl1), E.
      reflexivity. }
    rewrite Hlines. unfold PyStr.slice_1_m1. cbn [tl].
    rewrite (removelast_cons l ls Hls), Hjoin.
    exact (relined_from_seam nl1 inner nl2 Hseam1). }
  split.
  - rewrite Hs. exact Hu.
  - unfold plan_of_reply. rewrite !decoded_parse_plan_text, Hs, Hu.
    unfold unfence at 1. rewrite Hstart. exact Hdecode.
Qed.

End Fences.

(** The usual fenced answer as a planner on CR LF lines sends it, and
    the same content, with blanks around it and LF lines, before a last
    line that closes no fence, in the simulated environment. *)
Lemma C7_fenced_click_plan :
  let crlf := String PyStr.CR PyStr.newline in
  let step := Sim.quoted "{'action':'click','by':'css','selector':'#go'}" in
  let inner := ("[" ++ crlf ++ "  " ++ step ++ crlf ++ "]")%string in
  let blank := (" [" ++ step ++ "] ")%string in
  (boundary crlf = true
   /\ joins_as_crlf crlf (inner ++ crlf) = false
   /\ joins_as_crlf (crlf ++ inner) crlf = false
   /\ PyStr.startswith (PyStr.strip inner) "```" = false
   /\ decoded (Sim.json_loads (relined inner))
      = decoded (Sim.json_loads (PyStr.strip inner)))
  /\ relined inner <> inner
  /\ @unfence (PyStr.strip (fence_with crlf crlf "json" inner "```")) = relined inner
  /\ decoded (@plan_of_reply Sim.env (fence_with crlf crlf "json" inner "```"))
     = Some (JArr [Plans.click "#go"])
  /\ decoded (@plan_of_reply Sim.env (fence "json" blank "Hope this helps!"))
     = Some (JArr [Plans.click "#go"]).
Proof.
  intros crlf step inner blank. split; [repeat split; reflexivity|].
  split; [discriminate|].
  destruct (@C7_fenced_text_parses_as_its_content Sim.env crlf crlf "json" inner "```"
              eq_refl eq_refl eq_refl eq_refl eq_refl eq_refl ltac:(discriminate)
              eq_refl eq_refl eq_refl)
    as [Hu Hp].
  destruct (@C7_fenced_text_parses_as_its_content Sim.env PyStr.newline PyStr.newline
              "json" blank "Hope this helps!"
              eq_refl eq_refl eq_refl eq_refl eq_refl eq_refl ltac:(discriminate)
              eq_refl eq_refl eq_refl)
    as [_ Hp'].
  split; [exact Hu|]. split; [rewrite Hp; reflexivity|].
  change (fence "json" blank "Hope this helps!")
    with (fence_with PyStr.newline PyStr.newline "json" blank "Hope this helps!").
  rewrite Hp'. reflexivity.
Defined.

(** Three fenced texts the validator does not treat as their content:
    a content that is itself fenced, a content after a no-break space,
    and a content with a next-line character inside a string.  Each
    fails to decode when fenced and decodes when given as it is. *)
Lemma C7_fenced_and_unfenced_differ :
  let nbsp := String (ascii_of_nat 160) "" in
  let nel := String (ascii_of_nat 133) "" in
  let wrap inner := fence "json" inner "```" in
  decoded (@plan_of_reply Sim.env (wrap (wrap "[]"))) = None
  /\ decoded (@plan_of_reply Sim.env (wrap "[]")) = Some (JArr [])
  /\ decoded (@plan_of_reply Sim.env (wrap (nbsp ++ "[]")%string)) = None
  /\ decoded (@plan_of_reply Sim.env (nbsp ++ "[]")) = Some (JArr [])
  /\ decoded (@plan_of_reply Sim.env
                (wrap (Sim.quoted "['a" ++ nel ++ Sim.quoted "b']")%string)) = None
  /\ decoded (@plan_of_reply Sim.env (Sim.quoted "['a" ++ nel ++ Sim.quoted "b']"))
     = Some (JArr [JStr ("a" ++ nel ++ "b")]).
Proof.
  intros nbsp nel wrap. repeat split; reflexivity.
Qed.

(** ** The selector resolver *)

Section Resolver.
Context {env : Env}.

(** X1.  [find_element] fails fast.  For the selector kinds "css",
    "xpath", "id", "name" and "link_text" it makes exactly the browser's
    lookup, with [By.CSS_SELECTOR], [By.XPATH], [By.ID], [By.NAME] and
    [By.LINK_TEXT] in turn.  For any other kind it raises without asking
    the browser anything and leaves the state as it is: a [TypeError]
    for a list or a dict, which cannot be looked up in the table, and a
    [ValueError] that names the kind otherwise. *)
Theorem find_element_fails_fast by_ selector (st : @state env) :
  (forall key b,
      In (key, b) [("css", CSS_SELECTOR); ("xpath", XPATH); ("id", ID);
                   ("name", NAME); ("link_text", LINK_TEXT)] ->
      find_element (JStr key) selector st
      = call (EFind b selector) (driver_find_element env b selector) st)
  /\ (~ In by_ [JStr "css"; JStr "xpath"; JStr "id"; JStr "name"; JStr "link_text"] ->
      find_element by_ selector st
      = (st, Raise (match by_ with
                    | JArr _ | JObj _ => Exn "TypeError" [JStr "unhashable type"]
                    | _ => Exn "ValueError" [JStr "Unsupported selector type: "; by_]
                    end))).
Proof.
  split.
  - intros key b Hin. simpl in Hin.
    repeat (destruct Hin as [Hin|Hin]; [inversion Hin; subst; reflexivity|]).
    destruct Hin.
  - intros Hnot. destruct by_ as [| | | |key| |]; try reflexivity.
    simpl. unfold by_map.
    destruct (String.eqb_spec key "css"); [subst; destruct Hnot; simpl; tauto|].
    destruct (String.eqb_spec key "xpath"); [subst; destruct Hnot; simpl; tauto|].
    destruct (String.eqb_spec key "id"); [subst; destruct Hnot; simpl; tauto|].
    destruct (String.eqb_spec key "name"); [subst; destruct Hnot; simpl; tauto|].
    destruct (String.eqb_spec key "link_text"); [subst; destruct Hnot; simpl; tauto|].
    reflexivity.
Qed.

End Resolver.

(** ** The navigation gate, step by step *)

Section GateSteps.
Context {env : Env}.

Lemma first_disallowed_pass_iff allowed_now steps :
  first_disallowed allowed_now steps = Ok None
  <-> forallb (step_passes allowed_now) steps = true.
Proof.
  induction steps as [|step rest IH]; simpl; [tauto|].
  destruct step as [| | | | | |m]; simpl; try (split; discriminate).
  fold (field m "action" JNull). fold (field m "value" (JStr "")).
  destruct (eq_str (field m "action" JNull) "navigate"); simpl; [|exact IH].
  destruct (truthy (field m "value" (JStr ""))); simpl; [|exact IH].
  destruct (PyStr.mem _ allowed_now); simpl; [exact IH | split; discriminate].
Qed.

(** X2.  The navigation gate lets a plan through exactly when the plan
    is a list of dicts in which every navigation step with a non-empty
    [value] goes to a domain of the allowlist; it asks nothing else of a
    step: neither a known action nor the fields the action needs. *)
Theorem navigation_gate_passes_iff allowed_now (steps : list json) :
  navigation_gate allowed_now (JArr steps) = Ok None
  <-> forall step, In step steps ->
        exists m, step = JObj m
          /\ (field m "action" JNull = JStr "navigate" ->
              truthy (field m "value" (JStr "")) = true ->
              In (get_domain_from_url (field m "value" (JStr ""))) allowed_now).
Proof.
  unfold navigation_gate. simpl. rewrite first_disallowed_pass_iff, forallb_forall.
  split.
  - intros H step Hin. specialize (H step Hin).
    destruct step as [| | | | | |m]; try discriminate.
    exists m. split; [reflexivity|]. intros Hact Hval. simpl in H.
    rewrite Hact, Hval in H. simpl in H. apply mem_In, H.
  - intros H step Hin. destruct (H step Hin) as (m & -> & Hm). simpl.
    destruct (eq_str (field m "action" JNull) "navigate") eqn:Ha; [|reflexivity].
    destruct (truthy (field m "value" (JStr ""))) eqn:Hv; [|reflexivity].
    simpl. apply mem_In, Hm; [|reflexivity].
    destruct (field m "action" JNull); try discriminate.
    simpl in Ha. apply String.eqb_eq in Ha. subst. reflexivity.
Qed.

(** X3.  Allowing more domains never turns an accepted plan into a
    refused one. *)
Theorem navigation_gate_monotone allowed_now allowed_more plan :
  incl allowed_now allowed_more ->
  navigation_gate allowed_now plan = Ok None ->
  navigation_gate allowed_more plan = Ok None.
Proof.
  intros Hincl. unfold navigation_gate.
  destruct (py_iter plan) as [steps|e]; simpl; [|discriminate].
  rewrite !first_disallowed_pass_iff, !forallb_forall.
  intros H step Hin. specialize (H step Hin).
  destruct step as [| | | | | |m]; try discriminate. simpl in *.
  destruct (_ && _); [|reflexivity].
  apply mem_In. apply Hincl. apply mem_In. exact H.
Qed.

(** X4.  When the gate refuses a plan, the domain it names is the
    normalized target of the first navigation step that does not pass:
    the steps before it all pass, and the domain is not in the
    allowlist. *)
Theorem navigation_gate_names_first_offender allowed_now (steps : list json) d :
  navigation_gate allowed_now (JArr steps) = Ok (Some d) ->
  exists pre m post,
    steps = pre ++ JObj m :: post
    /\ forallb (step_passes allowed_now) pre = true
    /\ field m "action" JNull = JStr "navigate"
    /\ truthy (field m "value" (JStr "")) = true
    /\ d = get_domain_from_url (field m "value" (JStr ""))
    /\ ~ In d allowed_now.
Proof.
  unfold navigation_gate. simpl.
  induction steps as [|step rest IH]; simpl; [discriminate|].
  destruct step as [| | | | | |m]; simpl; try discriminate.
  fold (field m "action" JNull). fold (field m "value" (JStr "")).
  intros H.
  assert (Hrec : first_disallowed allowed_now rest = Ok (Some d) ->
                 step_passes allowed_now (JObj m) = true ->
                 exists pre m' post,
                   JObj m :: rest = pre ++ JObj m' :: post
                   /\ forallb (step_passes allowed_now) pre = true
                   /\ field m' "action" JNull = JStr "navigate"
                   /\ truthy (field m' "value" (JStr "")) = true
                   /\ d = get_domain_from_url (field m' "value" (JStr ""))
                   /\ ~ In d allowed_now).
  { intros Hr Hp. destruct (IH Hr) as (pre & m' & post & -> & Hpre & Hrest).
    exists (JObj m :: pre), m', post. split; [reflexivity|].
    split; [|exact Hrest].
    change (step_passes allowed_now (JObj m)
            && forallb (step_passes allowed_now) pre = true).
    rewrite Hp. exact Hpre. }
  unfold step_passes in Hrec.
  destruct (eq_str (field m "action" JNull) "navigate") eqn:Ha; simpl in Hrec;
    [|apply Hrec; [exact H | reflexivity]].
  destruct (truthy (field m "value" (JStr ""))) eqn:Hv; simpl in Hrec;
    [|apply Hrec; [exact H | reflexivity]].
  destruct (PyStr.mem _ allowed_now) eqn:Hm; simpl in H;
    [apply Hrec; [exact H | reflexivity]|].
  inversion H. subst d. exists [], m, rest. repeat split; try assumption.
  - destruct (field m "action" JNull); try discriminate.
    simpl in Ha. apply String.eqb_eq in Ha. subst. reflexivity.
  - apply mem_not_In, Hm.
Qed.

End GateSteps.

(** Adding "shop.test" to the allowlist keeps a plan that stays on
    "example.com" accepted. *)
Lemma navigation_gate_monotone_example :
  let plan := JArr [Plans.click "#go"; Plans.navigate "https://example.com/next"] in
  incl ALLOWED_DOMAINS (ALLOWED_DOMAINS ++ ["shop.test"])
  /\ @navigation_gate Sim.env ALLOWED_DOMAINS plan = Ok None
  /\ @navigation_gate Sim.env (ALLOWED_DOMAINS ++ ["shop.test"]) plan = Ok None.
Proof.
  intros plan.
  assert (Hincl : incl ALLOWED_DOMAINS (ALLOWED_DOMAINS ++ ["shop.test"]))
    by (apply incl_appl, incl_refl).
  split; [exact Hincl|]. split; [reflexivity|].
  exact (@navigation_gate_monotone Sim.env ALLOWED_DOMAINS
           (ALLOWED_DOMAINS ++ ["shop.test"]) plan Hincl eq_refl).
Defined.

(** Of two navigations to domains that are not allowed, the gate names
    the first. *)
Lemma navigation_gate_names_evil_test :
  let steps := [Plans.click "#go"; Plans.navigate "https://evil.test";
                Plans.navigate "https://worse.test"] in
  @navigation_gate Sim.env ALLOWED_DOMAINS (JArr steps) = Ok (Some "evil.test")
  /\ exists pre m post,
       steps = pre ++ JObj m :: post
       /\ forallb (@step_passes Sim.env ALLOWED_DOMAINS) pre = true
       /\ field m "action" JNull = JStr "navigate"
       /\ truthy (field m "value" (JStr "")) = true
       /\ "evil.test" = @get_domain_from_url Sim.env (field m "value" (JStr ""))
       /\ ~ In "evil.test" ALLOWED_DOMAINS.
Proof.
  intros steps. split; [reflexivity|].
  exact (@navigation_gate_names_first_offender Sim.env ALLOWED_DOMAINS steps
           "evil.test" eq_refl).
Defined.

(** ** The session entry check *)

Section Session.
Context {env : Env}.

(** X5.  The session entry check of [main] never touches the browser
    and never removes a domain from the allowlist.  When it lets the run
    go on, the domain of the start address is in the allowlist.  It adds
    a domain only when that domain was missing and the line read at its
    prompt, stripped and lower-cased, is "yes"; the domain it adds is
    the start domain, at the end of the list.  When it stops the run,
    the allowlist is as it was. *)
Theorem enter_session_keeps_the_allowlist_sound start_url (st st' : @state env) go_on :
  enter_session start_url st = (st', Ok go_on) ->
  let domain := get_domain_from_url (JStr start_url) in
  world st' = world st
  /\ (go_on = true -> In domain (allowed st'))
  /\ (go_on = false -> allowed st' = allowed st)
  /\ (allowed st' = allowed st
      \/ exists line rest,
           allowed st' = allowed st ++ [domain]
           /\ ~ In domain (allowed st)
           /\ stdin st = line :: rest /\ stdin st' = rest
           /\ PyStr.lower (PyStr.strip line) = "yes").
Proof.
  intros H domain. unfold enter_session in H. fold domain in H.
  unfold bind, print, emit, get_allowed, input, append_allowed, ret in H.
  simpl in H.
  destruct (PyStr.mem domain (allowed st)) eqn:Hmem; simpl in H.
  - inversion H. subst. simpl. repeat split; auto.
    intros _. apply mem_In, Hmem.
  - destruct (stdin st) as [|line rest] eqn:Hin; simpl in H; [discriminate|].
    destruct (String.eqb_spec (PyStr.lower (PyStr.strip line)) "yes") as [Hyes|Hno];
      simpl in H; inversion H; subst; simpl.
    + repeat split; auto; try discriminate.
      * intros _. apply in_or_app. right. left. reflexivity.
      * right. exists line, rest. repeat split; auto. apply mem_not_In, Hmem.
    + repeat split; auto. discriminate.
Qed.

(** What the later parts of [main] rely on. *)
Lemma enter_session_allowlist start_url (st st' : @state env) go_on :
  enter_session start_url st = (st', Ok go_on) ->
  (go_on = true -> In (get_domain_from_url (JStr start_url)) (allowed st'))
  /\ (allowed st' = allowed st
      \/ exists line rest,
           stdin st = line :: rest
           /\ PyStr.lower (PyStr.strip line) = "yes"
           /\ ~ In (get_domain_from_url (JStr start_url)) (allowed st)
           /\ allowed st' = allowed st ++ [get_domain_from_url (JStr start_url)]).
Proof.
  intros H. unfold enter_session in H. cbv zeta in H.
  unfold bind, print, emit, get_allowed, input, append_allowed, ret in H.
  simpl in H.
  destruct (PyStr.mem _ (allowed st)) eqn:Hmem; simpl in H.
  - inversion H. subst. simpl. split; auto. intros _. apply mem_In, Hmem.
  - destruct (stdin st) as [|line rest] eqn:Hin; simpl in H; [discriminate|].
    destruct (String.eqb_spec (PyStr.lower (PyStr.strip line)) "yes") as [Hyes|Hno];
      simpl in H; inversion H; subst; simpl.
    + split; [intros _; apply in_or_app; right; left; reflexivity|].
      right. exists line, rest. repeat split; auto. apply mem_not_In, Hmem.
    + split; [discriminate | left; reflexivity].
Qed.

End Session.

(** A start address on "shop.test", answered with " Yes ": the domain is
    appended and the run goes on. *)
Lemma enter_session_adds_shop_test :
  let st := Sim.start (Sim.fresh "") [" Yes "; "later"] in
  let st' := fst (@enter_session Sim.env "https://www.shop.test/cart" st) in
  @enter_session Sim.env "https://www.shop.test/cart" st = (st', Ok true)
  /\ allowed st' = ["example.com"; "localhost"; "shop.test"]
  /\ let domain := @get_domain_from_url Sim.env (JStr "https://www.shop.test/cart") in
     world st' = world st
     /\ (true = true -> In domain (allowed st'))
     /\ (true = false -> allowed st' = allowed st)
     /\ (allowed st' = allowed st
         \/ exists line rest,
              allowed st' = allowed st ++ [domain]
              /\ ~ In domain (allowed st)
              /\ stdin st = line :: rest /\ stdin st' = rest
              /\ PyStr.lower (PyStr.strip line) = "yes").
Proof.
  intros st st'. split; [reflexivity|]. split; [reflexivity|].
  exact (@enter_session_keeps_the_allowlist_sound Sim.env
           "https://www.shop.test/cart" st st' true eq_refl).
Defined.

(** ** Domains without "www." *)

Section Domains.
Context {env : Env}.

Lemma replace_from_absent old new s :
  contains s old = false -> PyStr.replace_from old new s 0 = s.
Proof.
  induction s as [|c r IH]; [reflexivity|]. simpl.
  intros H. apply orb_false_iff in H. destruct H as [Hp Hr].
  simpl in Hp. rewrite Hp, (IH Hr). reflexivity.
Qed.

Lemma replace_from_shrinks old s : forall skip,
  String.length (PyStr.replace_from old "" s skip) <= String.length s.
Proof.
  induction s as [|c r IH]; intros skip; [simpl; lia|].
  cbn [PyStr.replace_from String.length].
  destruct skip as [|k].
  - destruct (prefix old (String c r)); cbn [append String.length].
    + apply Nat.le_trans with (String.length r); [apply IH | lia].
    + apply le_n_S, IH.
  - apply Nat.le_trans with (String.length r); [apply IH | lia].
Qed.

(** X6.  [get_domain_from_url] leaves a network location without "www."
    in it as it is, drops a leading "www." from one that has no other,
    never returns something longer than the network location, and
    returns the empty string when the address cannot be parsed. *)
Theorem get_domain_from_url_on_plain_domains (url : json) :
  match urlparse_netloc env url with
  | Raise _ => get_domain_from_url url = ""
  | Ok netloc =>
      (contains netloc "www." = false -> get_domain_from_url url = netloc)
      /\ (forall d, netloc = ("www." ++ d)%string -> contains d "www." = false ->
          get_domain_from_url url = d)
      /\ String.length (get_domain_from_url url) <= String.length netloc
  end.
Proof.
  unfold get_domain_from_url.
  destruct (urlparse_netloc env url) as [netloc|e]; [|reflexivity].
  split; [|split].
  - intros H. apply (replace_from_absent "www." "" netloc H).
  - intros d -> H. unfold PyStr.replace. simpl.
    destruct d as [|c r]; [reflexivity|].
    simpl. exact (replace_from_absent "www." "" (String c r) H).
  - apply replace_from_shrinks.
Qed.

End Domains.

(** ** Asking for a plan *)

Section Planner.
Context {env : Env}.

Lemma substring_0_length n : forall s, String.length (substring 0 n s) <= n.
Proof.
  induction n as [|n IH]; intros [|c s]; simpl; try lia.
  specialize (IH s). lia.
Qed.

Lemma substring_0_prefix n : forall s, prefix (substring 0 n s) s = true.
Proof.
  induction n as [|n IH]; intros [|c s]; simpl; try reflexivity.
  rewrite IH. destruct (ascii_dec c c); [reflexivity | congruence].
Qed.

(** X7.  [ask_openai_for_plan] calls the planner at most once, with a
    prefix of the page text of at most 3000 characters, and not at all
    when there is no page text; it touches neither the allowlist nor the
    input.  Its failures are the [TypeError] on a missing page text, the
    planner's own exception, passed on as it is, and a [RuntimeError]
    when the answer does not decode; otherwise its result is the value
    decoded from the answer. *)
Theorem ask_openai_for_plan_outcomes page_text page_url user_task (st : @state env) :
  let st' := fst (ask_openai_for_plan page_text page_url user_task st) in
  let r := snd (ask_openai_for_plan page_text page_url user_task st) in
  allowed st' = allowed st /\ stdin st' = stdin st
  /\ match page_text with
     | None => st' = st /\ exists e, r = Raise e
     | Some t =>
         exists snippet,
           trace st' = trace st ++ [EChat page_url snippet user_task]
           /\ prefix snippet t = true
           /\ String.length snippet <= 3000
           /\ match chat_completion env page_url snippet user_task (world st) with
              | (w, Raise e) => world st' = w /\ r = Raise e
              | (w, Ok content) =>
                  world st' = w
                  /\ match json_loads env (unfence (PyStr.strip content)) with
                     | Ok plan => r = Ok plan
                     | Raise _ => exists args, r = Raise (Exn "RuntimeError" args)
                     end
              end
     end.
Proof.
  destruct page_text as [t|]; simpl.
  - unfold bind, call, pure, plan_of_reply, parse_plan_text.
    destruct (chat_completion env page_url (substring 0 3000 t) user_task (world st))
      as [w [content|e]] eqn:E; simpl.
    + split; [reflexivity|]. split; [reflexivity|].
      exists (substring 0 3000 t).
      split; [reflexivity|]. split; [apply substring_0_prefix|].
      split; [apply substring_0_length|]. rewrite E. split; [reflexivity|].
      destruct (json_loads env (unfence (PyStr.strip content))) as [plan|[cls args]].
      * reflexivity.
      * eexists. reflexivity.
    + split; [reflexivity|]. split; [reflexivity|].
      exists (substring 0 3000 t).
      split; [reflexivity|]. split; [apply substring_0_prefix|].
      split; [apply substring_0_length|]. rewrite E. split; reflexivity.
  - repeat split. eexists. reflexivity.
Qed.

End Planner.

(** ** More on the executor *)

Section ExecutorMore.
Context {env : Env}.

Lemma run_step_adds Q n i step :
  (forall m, Q (EPrint m) = true) ->
  (forall a b s v, adds Q (run_action a b s v)) ->
  adds (env := env) Q (run_step n i step).
Proof.
  intros Hprint Hact. unfold run_step.
  repeat (apply adds_bind; [apply adds_pure | intros ?]).
  apply adds_bind; [apply adds_emit, Hprint | intros _].
  apply adds_try.
  - apply adds_bind; [apply Hact | intros _; apply adds_ret].
  - intros e. apply adds_bind; [apply adds_emit, Hprint | intros _; apply adds_ret].
Qed.

Lemma run_steps_adds Q n steps :
  (forall i step, adds (env := env) Q (run_step n i step)) ->
  forall i, adds Q (run_steps n i steps).
Proof.
  intros Hstep. induction steps as [|step rest IH]; intros i; simpl.
  - apply adds_ret.
  - apply adds_bind; [apply Hstep | intros [|]; [apply IH | apply adds_ret]].
Qed.

Lemma run_action_executor_events action by_ selector value :
  adds (env := env) executor_event (run_action action by_ selector value).
Proof. unfold run_action, find_element. adds_steps. Qed.

(** X8.  Whatever the plan, [execute_plan] does nothing but print,
    sleep, load addresses and act on elements: it reads no input, leaves
    the allowlist as it is, and neither starts nor closes the browser
    nor calls the planner. *)
Theorem execute_plan_stays_in_its_lane plan (st : @state env) :
  exists w evs,
    fst (execute_plan plan st) = mkState w (allowed st) (stdin st) (trace st ++ evs)
    /\ forallb executor_event evs = true.
Proof.
  revert st. change (adds executor_event (execute_plan plan)).
  unfold execute_plan. apply adds_bind; [apply adds_pure | intros steps].
  apply run_steps_adds. intros i step.
  apply run_step_adds; [reflexivity|]. apply run_action_executor_events.
Qed.

(** X9.  Reading a step lies outside the [try] of [execute_plan]: when
    the steps before it succeed and a step is not a dict, the
    [AttributeError] of its [get] leaves [execute_plan], with no header
    and no error line printed for that step and nothing after it
    attempted. *)
Theorem execute_plan_raises_on_a_step_that_is_no_dict
    (pre post : list json) step (st st1 : @state env) :
  is_object step = false ->
  run_steps (length (pre ++ step :: post)) 1 pre st = (st1, Ok true) ->
  execute_plan (JArr (pre ++ step :: post)) st
  = (st1, Raise (Exn "AttributeError" [JStr "get"])).
Proof.
  intros Hobj Hpre. unfold execute_plan, bind at 1, pure. cbn [py_iter].
  rewrite (run_steps_app _ _ _ _ _ _ Hpre). cbn [run_steps].
  unfold bind. rewrite (run_step_not_object _ _ _ _ Hobj). reflexivity.
Qed.

(** X10.  Running [a ++ b] is running [a] and then, when every step of
    [a] succeeded, running [b] with the numbering carried on; when a
    step of [a] fails or raises, the outcome is that of [a] alone. *)
Theorem run_steps_of_an_append n i (a b : list json) (st : @state env) :
  run_steps n i (a ++ b) st =
  match run_steps n i a st with
  | (st1, Ok true) => run_steps n (i + length a) b st1
  | outcome => outcome
  end.
Proof.
  revert i st. induction a as [|step a IH]; intros i st; simpl.
  - rewrite Nat.add_0_r. reflexivity.
  - unfold bind. destruct (run_step n i step st) as [st2 [[|]|e]]; try reflexivity.
    rewrite IH. replace (S i + length a) with (i + S (length a)) by lia.
    reflexivity.
Qed.

(** X11.  A wait step never touches the browser.  Without a value, or
    with one that is empty, zero or null, it sleeps [DEFAULT_WAIT]
    seconds and succeeds.  With a value, it succeeds after sleeping the
    duration [float] makes of it, and fails, stopping the plan, when
    [float] or [time.sleep] raises on it. *)
Theorem wait_step_outcomes n i m (st : @state env) :
  field m "action" JNull = JStr "wait" ->
  let value := field m "value" (JStr "") in
  run_step n i (JObj m) st =
  if truthy value then
    match py_float env value with
    | Ok secs =>
        match sleep_fails env secs with
        | None => (logged st [header n i m; ESleep secs], Ok true)
        | Some e =>
            (logged st [header n i m; ESleep secs; EPrint (MStepError i e)], Ok false)
        end
    | Raise e => (logged st [header n i m; EPrint (MStepError i e)], Ok false)
    end
  else (logged st [header n i m; ESleep DEFAULT_WAIT], Ok true).
Proof.
  intros Hact value. rewrite run_step_object. fold value.
  unfold run_action. rewrite Hact. simpl.
  destruct (truthy value).
  - unfold bind, pure. simpl.
    destruct (py_float env value) as [secs|e]; simpl.
    + unfold sleep_value. simpl. destruct (sleep_fails env secs); simpl;
        unfold logged; simpl; rewrite <- ?app_assoc; reflexivity.
    + rewrite logged_logged. reflexivity.
  - unfold sleep_const, emit, logged. simpl. rewrite <- app_assoc. reflexivity.
Qed.

(** X12.  A navigation step loads its address only after [validators.url]
    accepts it: when the check does not, the browser is not asked to
    load anything, the step fails and the plan stops, the world being
    as it was.  When the check accepts the address, the browser loads
    it; the step succeeds after the settle delay when the load returns
    and fails when it raises. *)
Theorem navigate_step_outcomes n i m (st : @state env) :
  field m "action" JNull = JStr "navigate" ->
  let url := field m "value" (JStr "") in
  match validators_url env url with
  | Ok true =>
      match driver_get env url (world st) with
      | (w, Ok _) =>
          run_step n i (JObj m) st
          = (mkState w (allowed st) (stdin st)
               (trace st ++ [header n i m; EGet url; ESleep DEFAULT_WAIT]), Ok true)
      | (w, Raise e) =>
          run_step n i (JObj m) st
          = (mkState w (allowed st) (stdin st)
               (trace st ++ [header n i m; EGet url; EPrint (MStepError i e)]), Ok false)
      end
  | _ =>
      exists e, run_step n i (JObj m) st
                = (logged st [header n i m; EPrint (MStepError i e)], Ok false)
  end.
Proof.
  intros Hact url. rewrite run_step_object. fold url.
  unfold run_action. rewrite Hact. simpl.
  unfold bind, pure. simpl.
  destruct (validators_url env url) as [[|]|e]; simpl.
  - unfold call. simpl. destruct (driver_get env url (world st)) as [w [[]|e]]; simpl;
      unfold logged; simpl; rewrite <- ?app_assoc; reflexivity.
  - eexists. rewrite logged_logged. reflexivity.
  - eexists. rewrite logged_logged. reflexivity.
Qed.

(** X13.  A fill step clears the element before it types into it, and
    types the step's value; when clearing raises, nothing is typed and
    the step fails; when typing raises, the step fails with the element
    left cleared. *)
Theorem fill_step_outcomes n i m b (st : @state env) w1 elem :
  field m "action" JNull = JStr "fill" ->
  locator (field m "by" JNull) = Some b ->
  driver_find_element env b (field m "selector" JNull) (world st) = (w1, Ok elem) ->
  let value := field m "value" (JStr "") in
  let found := [header n i m; EFind b (field m "selector" JNull); EClear elem] in
  match element_clear env elem w1 with
  | (w2, Raise e) =>
      run_step n i (JObj m) st
      = (mkState w2 (allowed st) (stdin st)
           (trace st ++ found ++ [EPrint (MStepError i e)]), Ok false)
  | (w2, Ok _) =>
      match element_send_keys env elem value w2 with
      | (w3, Ok _) =>
          run_step n i (JObj m) st
          = (mkState w3 (allowed st) (stdin st)
               (trace st ++ found ++ [ESendKeys elem value; ESleep 0.5%float]), Ok true)
      | (w3, Raise e) =>
          run_step n i (JObj m) st
          = (mkState w3 (allowed st) (stdin st)
               (trace st ++ found ++ [ESendKeys elem value; EPrint (MStepError i e)]),
             Ok false)
      end
  end.
Proof.
  intros Hact Hloc Hfind value found. subst found.
  rewrite run_step_object. fold value. unfold run_action, find_element.
  rewrite Hact. unfold locator in Hloc.
  destruct (field m "by" JNull) as [| | | |key| |]; try discriminate.
  rewrite Hloc. simpl.
  unfold bind, call, sleep_const, emit, ret, logged. simpl.
  rewrite Hfind. simpl.
  destruct (element_clear env elem w1) as [w2 [[]|e2]]; simpl.
  - destruct (element_send_keys env elem value w2) as [w3 [[]|e3]]; simpl;
      rewrite <- !app_assoc; reflexivity.
  - rewrite <- !app_assoc. reflexivity.
Qed.

(** X14.  A click, fill or submit step whose element does not resolve --
    the selector kind is not supported, or the browser's lookup raises --
    acts on no element: the step fails with the resolver's exception and
    the plan stops there. *)
Theorem unresolved_element_fails_the_step n i m (st st1 : @state env) e :
  recognized (field m "action" JNull) = true ->
  eq_str (field m "action" JNull) "wait" = false ->
  eq_str (field m "action" JNull) "navigate" = false ->
  find_element (field m "by" JNull) (field m "selector" JNull)
               (logged st [header n i m]) = (st1, Raise e) ->
  run_step n i (JObj m) st = (logged st1 [EPrint (MStepError i e)], Ok false).
Proof.
  intros Hrec Hw Hn Hfind. rewrite run_step_object. unfold run_action.
  unfold recognized in Hrec. rewrite Hw, Hn in *. simpl in Hrec.
  rewrite Hrec. unfold bind at 1. unfold bind at 1. rewrite Hfind. reflexivity.
Qed.

End ExecutorMore.

(** A plan whose second step is a string: the click is made, then the
    executor raises. *)
Lemma execute_plan_raises_on_a_string_step :
  let st := Sim.start (Sim.browsing "https://example.com") [] in
  let st1 := fst (@run_steps Sim.env 2 1 [Plans.click "#go"] st) in
  Sim.clicked (world st1) = ["#go"]
  /\ @execute_plan Sim.env (JArr [Plans.click "#go"; JStr "click"]) st
     = (st1, Raise (Exn "AttributeError" [JStr "get"])).
Proof.
  intros st st1. split; [reflexivity|].
  exact (@execute_plan_raises_on_a_step_that_is_no_dict Sim.env
           [Plans.click "#go"] [] (JStr "click") st st1 eq_refl eq_refl).
Defined.

(** A wait of a second and a half. *)
Lemma wait_step_of_a_second_and_a_half :
  let st := Sim.start (Sim.browsing "https://example.com") [] in
  let m := [("action", JStr "wait"); ("value", JFloat 1.5%float)] in
  @run_step Sim.env 1 1 (JObj m) st
  = (logged st [header 1 1 m; ESleep 1.5%float], Ok true).
Proof.
  intros st m.
  exact (@wait_step_outcomes Sim.env 1 1 m st eq_refl).
Defined.

(** A navigation to a page of "example.com". *)
Lemma navigate_step_to_example_com :
  let st := Sim.start (Sim.browsing "https://example.com") [] in
  let m := [("action", JStr "navigate"); ("value", JStr "https://example.com/next")] in
  @run_step Sim.env 1 1 (JObj m) st
  = (@mkState Sim.env (Sim.browsing "https://example.com/next") ALLOWED_DOMAINS []
       [header 1 1 m; EGet (JStr "https://example.com/next"); ESleep DEFAULT_WAIT],
     Ok true).
Proof.
  intros st m.
  exact (@navigate_step_outcomes Sim.env 1 1 m st eq_refl).
Defined.

(** Filling a field that held a text. *)
Lemma fill_step_replaces_the_text :
  let w := Sim.mkWorld "" "https://example.com" [("#name", JStr "Bob")] [] [] true in
  let st := Sim.start w [] in
  let m := [("action", JStr "fill"); ("by", JStr "css");
            ("selector", JStr "#name"); ("value", JStr "Ada")] in
  @run_step Sim.env 1 1 (JObj m) st
  = (@mkState Sim.env
       (Sim.mkWorld "" "https://example.com" [("#name", JStr "Ada")] [] [] true)
       ALLOWED_DOMAINS []
       ([@header Sim.env 1 1 m; EFind CSS_SELECTOR (JStr "#name"); EClear "#name"]
        ++ [ESendKeys "#name" (JStr "Ada"); ESleep 0.5%float]),
     Ok true).
Proof.
  intros w st m.
  exact (@fill_step_outcomes Sim.env 1 1 m CSS_SELECTOR st w "#name"
           eq_refl eq_refl eq_refl).
Defined.

(** A click on an element that is not there. *)
Lemma click_on_a_missing_element :
  let st := Sim.start (Sim.browsing "https://example.com") [] in
  let m := [("action", JStr "click"); ("by", JStr "css"); ("selector", JStr "#missing")] in
  let e := Exn "NoSuchElementException" [JStr "#missing"] in
  @run_step Sim.env 1 1 (JObj m) st
  = (logged (logged st [header 1 1 m; EFind CSS_SELECTOR (JStr "#missing")])
            [EPrint (MStepError 1 e)], Ok false).
Proof.
  intros st m e.
  exact (@unresolved_element_fails_the_step Sim.env 1 1 m st
           (logged st [header 1 1 m; EFind CSS_SELECTOR (JStr "#missing")]) e
           eq_refl eq_refl eq_refl eq_refl).
Defined.

(** ** Computations that keep what the allowlist grants *)

Section Runs.
Context {env : Env}.
Variable P : list string -> Prop.
Variable Q : list string -> event (Element env) -> bool.
Hypothesis Qmono : monotone Q.

Lemma runs_ret {A} (a : A) : runs P Q (ret a).
Proof.
  intros st HP. exists []. simpl. rewrite app_nil_r.
  repeat split; auto. apply incl_refl.
Qed.

Lemma runs_raise {A} e : runs P Q (@raise env A e).
Proof.
  intros st HP. exists []. simpl. rewrite app_nil_r.
  repeat split; auto. apply incl_refl.
Qed.

Lemma runs_pure {A} (r : res A) : runs P Q (pure r).
Proof.
  intros st HP. exists []. simpl. rewrite app_nil_r.
  repeat split; auto. apply incl_refl.
Qed.

Lemma runs_get_allowed : runs P Q get_allowed.
Proof.
  intros st HP. exists []. simpl. rewrite app_nil_r.
  repeat split; auto. apply incl_refl.
Qed.

Lemma runs_emit e : (forall l, P l -> Q l e = true) -> runs P Q (emit e).
Proof.
  intros He st HP. exists [e]. simpl. rewrite (He _ HP).
  repeat split; auto. apply incl_refl.
Qed.

Lemma runs_call {A} e (op : World env -> World env * res A) :
  (forall l, P l -> Q l e = true) -> runs P Q (call e op).
Proof.
  intros He st HP. unfold call. destruct (op (world st)) as [w r].
  exists [e]. simpl. rewrite (He _ HP). repeat split; auto. apply incl_refl.
Qed.

Lemma runs_sleep_value secs :
  (forall l, P l -> Q l (ESleep secs) = true) -> runs P Q (sleep_value secs).
Proof.
  intros He st HP. exists [ESleep secs]. simpl. rewrite (He _ HP).
  repeat split; auto. apply incl_refl.
Qed.

Lemma runs_input p :
  (forall l line, P l -> Q l (EInput p line) = true) -> runs P Q (input p).
Proof.
  intros He st HP. unfold input. destruct (stdin st) as [|line rest].
  - exists [EInput p None]. simpl. rewrite (He _ _ HP).
    repeat split; auto. apply incl_refl.
  - exists [EInput p (Some line)]. simpl. rewrite (He _ _ HP).
    repeat split; auto. apply incl_refl.
Qed.

Lemma runs_append_allowed d :
  (forall l, P l -> P (l ++ [d])) -> runs P Q (append_allowed d).
Proof.
  intros Hd st HP. exists []. simpl. rewrite app_nil_r.
  repeat split; auto. apply incl_appl, incl_refl.
Qed.

Lemma forallb_mono l l' (evs : list (event (Element env))) :
  incl l l' -> forallb (Q l) evs = true -> forallb (Q l') evs = true.
Proof.
  intros Hincl H. rewrite forallb_forall in *. intros e He.
  apply (Qmono l l' e Hincl), H, He.
Qed.

Lemma runs_bind {A B} (c : M A) (k : A -> M B) :
  runs P Q c -> (forall a, runs P Q (k a)) -> runs P Q (bind c k).
Proof.
  intros Hc Hk st HP. unfold bind.
  destruct (Hc st HP) as (evs & E & HQ & Hincl & HP').
  destruct (c st) as [st1 [a|e]]; simpl in *.
  - destruct (Hk a st1 HP') as (evs' & E' & HQ' & Hincl' & HP'').
    exists (evs ++ evs'). rewrite E', E, app_assoc, forallb_app.
    rewrite (forallb_mono _ _ _ Hincl' HQ), HQ'.
    repeat split; auto. eapply incl_tran; eassumption.
  - exists evs. auto.
Qed.

Lemma runs_try {A} (c : M A) (h : exn -> M A) :
  runs P Q c -> (forall e, runs P Q (h e)) -> runs P Q (try_except c h).
Proof.
  intros Hc Hh st HP. unfold try_except.
  destruct (Hc st HP) as (evs & E & HQ & Hincl & HP').
  destruct (c st) as [st1 [a|e]]; simpl in *.
  - exists evs. auto.
  - destruct (Hh e st1 HP') as (evs' & E' & HQ' & Hincl' & HP'').
    exists (evs ++ evs'). rewrite E', E, app_assoc, forallb_app.
    rewrite (forallb_mono _ _ _ Hincl' HQ), HQ'.
    repeat split; auto. eapply incl_tran; eassumption.
Qed.

(** A result at hand is a result known. *)
Lemma runs_bind_pure {A B} (r : res A) (k : A -> M B) :
  (forall a, r = Ok a -> runs P Q (k a)) -> runs P Q (bind (pure r) k).
Proof.
  intros Hk st HP. unfold bind, pure. destruct r as [a|e].
  - apply (Hk a eq_refl st HP).
  - exists []. simpl. rewrite app_nil_r. repeat split; auto. apply incl_refl.
Qed.

(** What keeps the allowlist and the input keeps [P]. *)
Lemma adds_runs Q0 {A} (c : M A) :
  (forall l e, P l -> Q0 e = true -> Q l e = true) ->
  adds Q0 c -> runs P Q c.
Proof.
  intros HQ0 Hc st HP. destruct (Hc st) as (w & evs & E & HQ).
  exists evs. rewrite E. simpl. repeat split; auto; [|apply incl_refl].
  rewrite forallb_forall in *. intros e He. apply HQ0; auto.
Qed.

End Runs.

Section RunsMore.
Context {env : Env}.
Variable Q : list string -> event (Element env) -> bool.

(** The list read is the list there is. *)
Lemma runs_bind_get_allowed L {B} (k : list string -> M B) :
  runs (eq L) Q (k L) -> runs (eq L) Q (bind get_allowed k).
Proof. intros Hk st HP. subst L. exact (Hk st eq_refl). Qed.

Lemma runs_any_list {A} (c : M A) :
  (forall L, runs (eq L) Q c) -> runs (fun _ => True) Q c.
Proof.
  intros Hc st _. destruct (Hc (allowed st) st eq_refl) as (evs & E & HQ & Hincl & _).
  exists evs. auto.
Qed.

End RunsMore.

(** Applies the rules above along the structure of a computation. *)
Ltac runs_steps side :=
  repeat match goal with
         | |- runs _ _ (if ?b then _ else _) => destruct b
         | |- runs _ _ (match ?x with _ => _ end) => destruct x
         | |- runs _ _ (bind _ _) => apply runs_bind; [assumption | | intros ?]
         | |- runs _ _ (try_except _ _) => apply runs_try; [assumption | | intros ?]
         | |- runs _ _ (ret _) => apply runs_ret
         | |- runs _ _ (raise _) => apply runs_raise
         | |- runs _ _ (pure _) => apply runs_pure
         | |- runs _ _ get_allowed => apply runs_get_allowed
         | |- runs _ _ (print _) => apply runs_emit; side
         | |- runs _ _ (sleep_const _) => apply runs_emit; side
         | |- runs _ _ (sleep_value _) => apply runs_sleep_value; side
         | |- runs _ _ (call _ _) => apply runs_call; side
         | |- runs _ _ quit => apply runs_call; side
         | |- runs _ _ (input _) => apply runs_input; side
         | |- runs _ _ (append_allowed _) => apply runs_append_allowed; side
         end.

(** ** Whole runs of [main] *)

Section Main.
Context {env : Env}.

(** [obtain_plan], with its last part named. *)
Lemma obtain_plan_opens :
  obtain_plan (env := env) =
  (print MBanner ;; print MImportant ;;
   line <- input AskStartUrl ;;
   valid <- pure (validators_url env (JStr (start_url_of line))) ;;
   if negb valid then print MInvalidUrl ;; ret None
   else
     go_on <- enter_session (start_url_of line) ;;
     if negb go_on then ret None else open_and_plan (start_url_of line)).
Proof. reflexivity. Qed.

Lemma monotone_const (Q : event (Element env) -> bool) : monotone (fun _ => Q).
Proof. intros l l' e _ H. exact H. Qed.

Lemma monotone_allowed_get : monotone (env := env) allowed_get.
Proof.
  intros l l' [] Hincl H; simpl in *; auto.
  apply mem_In, Hincl, mem_In, H.
Qed.

(** Before it holds a plan, [main] attempts no step and touches no
    element. *)
Lemma obtain_plan_no_step :
  runs (env := env) (fun _ => True) (fun _ => no_step) obtain_plan.
Proof.
  pose proof (monotone_const no_step) as Hmono.
  unfold obtain_plan, enter_session, ask_openai_for_plan. cbv zeta.
  runs_steps ltac:(intros; auto; reflexivity).
Qed.

Lemma execute_plan_adds_any plan : adds (env := env) any_event (execute_plan plan).
Proof.
  unfold execute_plan. apply adds_bind; [apply adds_pure | intros steps].
  apply run_steps_adds. intros i step.
  apply run_step_adds; [reflexivity|]. intros action by_ selector value.
  unfold run_action, find_element. adds_steps.
Qed.

(** [review_and_run], with its last part named. *)
Lemma review_and_run_approves plan :
  review_and_run (env := env) plan =
  (print MPlanBegin ;; print (MPlan plan) ;; print MPlanEnd ;;
   allowed_now <- get_allowed ;;
   verdict <- pure (navigation_gate allowed_now plan) ;;
   match verdict with
   | Some nav_domain => print (MDisallowed nav_domain) ;; print MRefusing ;; quit
   | None =>
       line <- input AskApprove ;;
       if negb (String.eqb (PyStr.lower (PyStr.strip line)) "yes")
       then print MNotApproved ;; quit
       else run_approved plan
   end).
Proof. reflexivity. Qed.

Lemma run_approved_adds_any plan : adds (env := env) any_event (run_approved plan).
Proof.
  unfold run_approved.
  apply adds_bind; [apply adds_emit; reflexivity | intros _].
  apply adds_bind; [apply execute_plan_adds_any | intros success].
  adds_steps.
Qed.

#[local] Arguments run_approved : simpl never.

(** Once it holds a plan, [main] attempts no step and touches no element
    before it has read an approving line. *)
Lemma review_and_run_after_approval plan (st : @state env) :
  exists before rest,
    trace (fst (review_and_run plan st)) = trace st ++ before ++ rest
    /\ forallb no_step before = true
    /\ (rest = []
        \/ exists line tail,
             rest = EInput AskApprove (Some line) :: tail
             /\ PyStr.lower (PyStr.strip line) = "yes").
Proof.
  destruct st as [w al inp tr]. rewrite review_and_run_approves.
  unfold bind, print, emit, get_allowed, pure. simpl.
  destruct (navigation_gate al plan) as [[d|]|e]; simpl.
  - unfold quit, call. simpl. destruct (driver_quit env w) as [w' r]. simpl.
    exists [EPrint MPlanBegin; EPrint (MPlan plan); EPrint MPlanEnd;
            EPrint (MDisallowed d); EPrint MRefusing; EQuit], [].
    rewrite <- !app_assoc. auto.
  - unfold input. simpl. destruct inp as [|line rest]; simpl.
    + exists [EPrint MPlanBegin; EPrint (MPlan plan); EPrint MPlanEnd;
              EInput AskApprove None], [].
      rewrite <- !app_assoc. auto.
    + destruct (String.eqb_spec (PyStr.lower (PyStr.strip line)) "yes") as [Hyes|Hno];
        simpl.
      * match goal with
        | |- context [run_approved plan ?s] =>
            destruct (run_approved_adds_any plan s) as (w1 & evs & E & _)
        end.
        rewrite E. simpl.
        exists [EPrint MPlanBegin; EPrint (MPlan plan); EPrint MPlanEnd],
               (EInput AskApprove (Some line) :: evs).
        rewrite <- !app_assoc. simpl. split; [reflexivity|].
        split; [reflexivity|]. right. eauto.
      * unfold quit, call. simpl. destruct (driver_quit env w) as [w' r]. simpl.
        exists [EPrint MPlanBegin; EPrint (MPlan plan); EPrint MPlanEnd;
                EInput AskApprove (Some line); EPrint MNotApproved; EQuit], [].
        rewrite <- !app_assoc. auto.
  - exists [EPrint MPlanBegin; EPrint (MPlan plan); EPrint MPlanEnd], [].
    rewrite <- !app_assoc. auto.
Qed.

(** X15.  [main] runs no step without approval: in every run, whatever
    the input and whatever the browser and the planner do, the header of
    a step is printed and an element is looked up, clicked, cleared,
    typed into or submitted only after a line was read at the approval
    prompt that, stripped and lower-cased, is "yes". *)
Theorem main_acts_only_after_approval (st : @state env) :
  exists before rest,
    trace (fst (main st)) = trace st ++ before ++ rest
    /\ forallb no_step before = true
    /\ (rest = []
        \/ exists line tail,
             rest = EInput AskApprove (Some line) :: tail
             /\ PyStr.lower (PyStr.strip line) = "yes").
Proof.
  unfold main, bind.
  destruct (obtain_plan_no_step st I) as (evs1 & E1 & HQ1 & _).
  destruct (obtain_plan st) as [st1 [[plan|]|e]]; simpl in *.
  - destruct (review_and_run_after_approval plan st1)
      as (before & rest & E2 & HQ2 & Hrest).
    exists (evs1 ++ before), rest.
    rewrite E2, E1, <- !app_assoc, forallb_app, HQ1, HQ2. auto.
  - exists evs1, []. rewrite app_nil_r. auto.
  - exists evs1, []. rewrite app_nil_r. auto.
Qed.

End Main.

Section Loads.
Context {env : Env}.

(** [validators.url] accepts no value that Python takes for false. *)
Hypothesis accepted_is_truthy :
  forall value, validators_url env value = Ok true -> truthy value = true.

Lemma run_action_loads L action by_ selector value :
  (eq_str action "navigate" = true -> truthy value = true ->
   PyStr.mem (get_domain_from_url value) L = true) ->
  adds (allowed_get L) (run_action action by_ selector value).
Proof.
  intros Hnav. unfold run_action.
  destruct (eq_str action "wait"); [adds_steps|].
  destruct (eq_str action "navigate").
  - destruct (validators_url env value) as [[|]|e] eqn:Ev.
    + assert (Hget : adds (allowed_get L)
                       (call (EGet value) (driver_get env value) ;;
                        sleep_const DEFAULT_WAIT)).
      { apply adds_bind; [|intros _; apply adds_emit; reflexivity].
        apply adds_call. simpl.
        apply Hnav; [reflexivity | apply accepted_is_truthy, Ev]. }
      intros st. exact (Hget st).
    + intros st. exact (adds_raise (allowed_get L) _ st).
    + intros st. exact (adds_raise (allowed_get L) e st).
  - unfold find_element. adds_steps.
Qed.

Lemma run_step_object_adds (Q : event (Element env) -> bool) n i m :
  (forall msg, Q (EPrint msg) = true) ->
  adds Q (run_action (field m "action" JNull) (field m "by" JNull)
                     (field m "selector" JNull) (field m "value" (JStr ""))) ->
  adds Q (run_step n i (JObj m)).
Proof.
  intros Hprint Hact st. rewrite run_step_object.
  destruct (Hact (logged st [header n i m])) as (w & evs & E & HQ).
  destruct (run_action _ _ _ _ _) as [st' [[]|e]]; simpl in E; subst st'; simpl.
  - exists w, (header n i m :: evs). rewrite <- app_assoc. split; [reflexivity|].
    unfold header. simpl. rewrite Hprint. exact HQ.
  - exists w, (header n i m :: evs ++ [EPrint (MStepError i e)]).
    unfold logged. simpl. rewrite <- !app_assoc. split; [reflexivity|].
    unfold header. simpl. rewrite forallb_app, HQ, Hprint. simpl.
    rewrite Hprint. reflexivity.
Qed.

Lemma run_steps_loads L n steps :
  forallb (step_passes L) steps = true ->
  forall i, adds (allowed_get L) (run_steps n i steps).
Proof.
  induction steps as [|step rest IH]; intros H i; simpl.
  - apply adds_ret.
  - simpl in H. apply andb_true_iff in H. destruct H as [Hstep Hrest].
    destruct step as [| | | | | |m]; try discriminate.
    apply adds_bind; [|intros [|]; [apply IH, Hrest | apply adds_ret]].
    apply run_step_object_adds; [reflexivity|].
    apply run_action_loads. intros Hnav Hval. simpl in Hstep.
    rewrite Hnav, Hval in Hstep. exact Hstep.
Qed.

(** X16.  The executor loads no address the gate has not seen: on a
    plan the navigation gate lets through for an allowlist, every
    address [execute_plan] asks the browser to load has its normalized
    domain in that allowlist.  ([validators.url] is taken to accept no
    empty, zero or null value, which the gate passes over.) *)
Theorem execute_plan_loads_only_allowed L plan (st : @state env) :
  navigation_gate L plan = Ok None ->
  exists w evs,
    fst (execute_plan plan st) = mkState w (allowed st) (stdin st) (trace st ++ evs)
    /\ forallb (allowed_get L) evs = true.
Proof.
  intros Hgate. revert st. change (adds (allowed_get L) (execute_plan plan)).
  unfold navigation_gate in Hgate. unfold execute_plan.
  destruct (py_iter plan) as [steps|e]; simpl in Hgate; [|discriminate].
  intros st.
  exact (run_steps_loads L (length steps) steps
           (proj1 (first_disallowed_pass_iff L steps) Hgate) 1 st).
Qed.

Lemma review_and_run_loads plan L :
  runs (eq L) allowed_get (review_and_run plan).
Proof.
  pose proof monotone_allowed_get as Hmono.
  rewrite review_and_run_approves.
  do 3 (apply runs_bind; [assumption | apply runs_emit; reflexivity | intros _]).
  apply runs_bind_get_allowed. apply runs_bind_pure. intros [d|] Hgate.
  - runs_steps ltac:(intros; reflexivity).
  - apply runs_bind; [assumption | apply runs_input; reflexivity | intros line].
    destruct (negb _); [runs_steps ltac:(intros; reflexivity)|].
    unfold run_approved.
    apply runs_bind; [assumption | apply runs_emit; reflexivity | intros _].
    apply runs_bind; [assumption | | intros success;
                                     runs_steps ltac:(intros; reflexivity)].
    apply (adds_runs _ _ (allowed_get L)).
    + intros l e <- H. exact H.
    + unfold navigation_gate in Hgate. unfold execute_plan.
      destruct (py_iter plan) as [steps|e]; simpl in Hgate; [|discriminate].
      intros st.
      exact (run_steps_loads L (length steps) steps
               (proj1 (first_disallowed_pass_iff L steps) Hgate) 1 st).
Qed.

Lemma open_and_plan_loads start_url :
  runs (In (get_domain_from_url (JStr start_url))) allowed_get
       (open_and_plan start_url).
Proof.
  pose proof monotone_allowed_get as Hmono.
  unfold open_and_plan, ask_openai_for_plan. cbv zeta.
  runs_steps ltac:(intros; first [reflexivity | simpl; apply mem_In; assumption]).
Qed.

Lemma enter_session_loads start_url :
  runs (fun _ => True) allowed_get (enter_session start_url).
Proof.
  pose proof monotone_allowed_get as Hmono.
  unfold enter_session. cbv zeta.
  runs_steps ltac:(intros; auto; reflexivity).
Qed.

Lemma obtain_plan_loads : runs (fun _ => True) allowed_get obtain_plan.
Proof.
  pose proof monotone_allowed_get as Hmono.
  rewrite obtain_plan_opens.
  do 2 (apply runs_bind; [assumption | apply runs_emit; reflexivity | intros _]).
  apply runs_bind; [assumption | apply runs_input; reflexivity | intros line].
  apply runs_bind; [assumption | apply runs_pure | intros valid].
  destruct (negb valid); [runs_steps ltac:(intros; reflexivity)|].
  intros st _. unfold bind.
  destruct (enter_session_loads (start_url_of line) st I) as (evs & E & HQ & Hincl & _).
  destruct (enter_session (start_url_of line) st) as [st1 [go_on|e]] eqn:Es;
    simpl in *.
  - destruct go_on; simpl.
    + destruct (enter_session_allowlist _ _ _ _ Es) as (Hin & _).
      destruct (open_and_plan_loads (start_url_of line) st1 (Hin eq_refl))
        as (evs' & E' & HQ' & Hincl' & _).
      exists (evs ++ evs'). rewrite E', E, app_assoc, forallb_app.
      rewrite (forallb_mono _ Hmono _ _ _ Hincl' HQ), HQ'.
      repeat split; auto. eapply incl_tran; eassumption.
    + exists evs. auto.
  - exists evs. auto.
Qed.

(** X17.  In every run of [main], whatever the input and whatever the
    browser and the planner do, each address the browser is asked to
    load -- the start address and the targets of the plan's navigation
    steps -- has its normalized domain in the allowlist as the run leaves
    it; and the run removes no domain from the allowlist.
    ([validators.url] is taken to accept no empty, zero or null
    value.) *)
Theorem main_loads_only_allowed (st : @state env) :
  exists evs,
    trace (fst (main st)) = trace st ++ evs
    /\ forallb (allowed_get (allowed (fst (main st)))) evs = true
    /\ incl (allowed st) (allowed (fst (main st))).
Proof.
  assert (H : runs (fun _ => True) allowed_get main).
  { unfold main. apply runs_bind;
      [apply monotone_allowed_get | apply obtain_plan_loads | intros [plan|]].
    - apply runs_any_list. intros L. apply review_and_run_loads.
    - apply runs_ret. }
  destruct (H st I) as (evs & E & HQ & Hincl & _). eauto.
Qed.

End Loads.

(** The simulated [validators.url] accepts no empty, zero or null value. *)
Lemma sim_accepted_is_truthy (value : json) :
  validators_url Sim.env value = Ok true -> truthy value = true.
Proof.
  destruct value as [| | | |s| |]; simpl; try discriminate.
  destruct s; simpl; [discriminate | reflexivity].
Qed.

(** A plan that clicks and moves on within "example.com". *)
Lemma execute_plan_loads_example_com :
  let st := Sim.start (Sim.browsing "https://example.com") [] in
  let plan := JArr [Plans.click "#go"; Plans.navigate "https://example.com/next"] in
  @navigation_gate Sim.env ALLOWED_DOMAINS plan = Ok None
  /\ exists w evs,
       fst (execute_plan plan st)
       = mkState w (allowed st) (stdin st) (trace st ++ evs)
       /\ forallb (allowed_get ALLOWED_DOMAINS) evs = true.
Proof.
  intros st plan. split; [reflexivity|].
  exact (@execute_plan_loads_only_allowed Sim.env sim_accepted_is_truthy
           ALLOWED_DOMAINS plan st eq_refl).
Defined.

(** A whole run that starts on "shop.test", adds it and follows a plan
    within it. *)
Lemma main_loads_shop_test :
  let reply := Sim.quoted "[{'action':'navigate','value':'https://shop.test/cart'}]" in
  let st := Sim.start (Sim.fresh reply) ["https://shop.test"; "yes"; "open the cart"; "yes"] in
  Sim.location (world (fst (@main Sim.env st))) = "https://shop.test/cart"
  /\ exists evs,
       trace (fst (main st)) = trace st ++ evs
       /\ forallb (allowed_get (allowed (fst (main st)))) evs = true
       /\ incl (allowed st) (allowed (fst (main st))).
Proof.
  intros reply st. split; [reflexivity|].
  exact (@main_loads_only_allowed Sim.env sim_accepted_is_truthy st).
Defined.

(** ** The allowlist and the browser over a whole run *)

Section Keeping.
Context {env : Env}.

#[local] Arguments enter_session : simpl never.
#[local] Arguments open_and_plan : simpl never.

Lemma runs_keeps (Q : list string -> event (Element env) -> bool) {A} (c : M A) :
  (forall L, runs (eq L) Q c) -> forall st, allowed (fst (c st)) = allowed st.
Proof.
  intros H st. destruct (H (allowed st) st eq_refl) as (_ & _ & _ & _ & E).
  symmetry. exact E.
Qed.

Lemma open_and_plan_keeps start_url L :
  runs (eq L) (fun _ => any_event) (open_and_plan start_url).
Proof.
  pose proof (monotone_const (env := env) any_event) as Hmono.
  unfold open_and_plan, ask_openai_for_plan. cbv zeta.
  runs_steps ltac:(intros; reflexivity).
Qed.

Lemma review_and_run_keeps plan L :
  runs (eq L) (fun _ => any_event) (review_and_run plan).
Proof.
  pose proof (monotone_const (env := env) any_event) as Hmono.
  rewrite review_and_run_approves.
  do 3 (apply runs_bind; [assumption | apply runs_emit; reflexivity | intros _]).
  apply runs_bind_get_allowed. apply runs_bind_pure. intros [d|] Hgate.
  - runs_steps ltac:(intros; reflexivity).
  - apply runs_bind; [assumption | apply runs_input; reflexivity | intros line].
    destruct (negb _); [runs_steps ltac:(intros; reflexivity)|].
    apply (adds_runs _ _ any_event); [reflexivity|].
    apply run_approved_adds_any.
Qed.

(** X18.  [main] changes the allowlist in one way only: it appends the
    normalized domain of the start address, when that domain is not in
    the list and the second line of the input -- the answer to the
    question whether to add it -- is "yes" once stripped and
    lower-cased.  Otherwise the run leaves the allowlist as it found
    it; no plan, no planner answer and no browser event changes it. *)
Theorem main_changes_the_allowlist_only_on_yes (st : @state env) :
  allowed (fst (main st)) = allowed st
  \/ exists line answer rest,
       stdin st = line :: answer :: rest
       /\ PyStr.lower (PyStr.strip answer) = "yes"
       /\ ~ In (get_domain_from_url (JStr (start_url_of line))) (allowed st)
       /\ allowed (fst (main st))
          = allowed st ++ [get_domain_from_url (JStr (start_url_of line))].
Proof.
  assert (Hmain : allowed (fst (main st)) = allowed (fst (obtain_plan st))).
  { unfold main, bind. destruct (obtain_plan st) as [st1 [[plan|]|e]]; simpl; auto.
    apply (runs_keeps (fun _ => any_event)). intros L. apply review_and_run_keeps. }
  rewrite Hmain. clear Hmain. rewrite obtain_plan_opens.
  destruct st as [w al inp tr].
  unfold bind, print, emit, input, pure, ret. simpl.
  destruct inp as [|line rest1]; simpl; [left; reflexivity|].
  destruct (validators_url env (JStr (start_url_of line))) as [[|]|e]; simpl;
    try (left; reflexivity).
  match goal with
  | |- context [enter_session (start_url_of line) ?s] =>
      destruct (enter_session (start_url_of line) s) as [s1 [go_on|e]] eqn:Es
  end.
  - destruct (enter_session_allowlist _ _ _ _ Es) as (_ & Hcases).
    assert (Hend : forall s, allowed (fst (open_and_plan (start_url_of line) s))
                             = allowed s).
    { apply (runs_keeps (fun _ => any_event)). intros L. apply open_and_plan_keeps. }
    assert (Hgoal : allowed s1 = al
                    \/ exists line0 answer rest,
                         line :: rest1 = line0 :: answer :: rest
                         /\ PyStr.lower (PyStr.strip answer) = "yes"
                         /\ ~ In (get_domain_from_url (JStr (start_url_of line0))) al
                         /\ allowed s1
                            = al ++ [get_domain_from_url (JStr (start_url_of line0))]).
    { simpl in Hcases.
      destruct Hcases as [Hsame | (answer & rest & Hin & Hyes & Hnot & Hadd)].
      - left. exact Hsame.
      - right. exists line, answer, rest. inversion Hin. subst. auto. }
    destruct go_on; simpl; [rewrite Hend|]; exact Hgoal.
  - simpl. left.
    unfold enter_session in Es. cbv zeta in Es.
    unfold bind, print, emit, get_allowed, input, append_allowed, ret in Es.
    simpl in Es.
    destruct (PyStr.mem _ al); simpl in Es; [discriminate|].
    destruct rest1; simpl in Es; [inversion Es; reflexivity|].
    destruct (String.eqb _ "yes"); simpl in Es; discriminate.
Qed.

End Keeping.

(** ** Closing the browser *)

Section Shuts.
Context {env : Env}.
Variable need : list (event (Element env)) -> Prop.
Variable Qpre : event (Element env) -> bool.
Hypothesis need_after :
  forall evs1 evs2, forallb Qpre evs1 = true -> need (evs1 ++ evs2) -> need evs2.

Lemma closed_after_app (evs1 evs2 : list (event (Element env))) :
  closed_after evs2 -> closed_after (evs1 ++ evs2).
Proof.
  intros (pre & post & E & Hpost). exists (evs1 ++ pre), post.
  rewrite E, app_assoc. auto.
Qed.

Lemma shuts_bind {A B} (ok : B -> Prop) (c : M A) (k : A -> M B) :
  runs (fun _ => True) (fun _ => Qpre) c ->
  (forall a, shuts need ok (k a)) ->
  shuts need ok (bind c k).
Proof.
  intros Hc Hk st. destruct (Hc st I) as (evs & E & HQ & _). unfold bind.
  destruct (c st) as [st1 [a|e]]; simpl in *.
  - destruct (Hk a st1) as (evs' & E' & Hclose). exists (evs ++ evs').
    split; [rewrite E', E, app_assoc; reflexivity|].
    intros b Hb Hok Hneed.
    apply closed_after_app, (Hclose b Hb Hok), (need_after evs evs' HQ Hneed).
  - exists evs. split; [exact E|]. intros; discriminate.
Qed.

Lemma shuts_try {A} (ok : A -> Prop) (c : M A) (h : exn -> M A) :
  runs (fun _ => True) (fun _ => Qpre) c ->
  (forall st a, snd (c st) = Ok a -> ~ ok a) ->
  (forall e, shuts need ok (h e)) ->
  shuts need ok (try_except c h).
Proof.
  intros Hc Hno Hh st. destruct (Hc st I) as (evs & E & HQ & _).
  specialize (Hno st). unfold try_except.
  destruct (c st) as [st1 [a|e]]; simpl in *.
  - exists evs. split; [exact E|]. intros b Hb Hok. inversion Hb. subst b.
    destruct (Hno a eq_refl Hok).
  - destruct (Hh e st1) as (evs' & E' & Hclose). exists (evs ++ evs').
    split; [rewrite E', E, app_assoc; reflexivity|].
    intros b Hb Hok Hneed.
    apply closed_after_app, (Hclose b Hb Hok), (need_after evs evs' HQ Hneed).
Qed.

Lemma shuts_quit_then {B} (ok : B -> Prop) (k : unit -> M B) :
  (forall u, adds is_print (k u)) -> shuts need ok (bind quit k).
Proof.
  intros Hk st. unfold bind, quit, call.
  destruct (driver_quit env (world st)) as [w [u|e]]; simpl.
  - match goal with
    | |- context [k u ?s] => destruct (Hk u s) as (w1 & evs & E & HQ)
    end.
    rewrite E. simpl. exists (EQuit :: evs). rewrite <- app_assoc.
    split; [reflexivity|]. intros _ _ _ _. exists [], evs. auto.
  - exists [EQuit]. split; [reflexivity|]. intros; discriminate.
Qed.

Lemma shuts_quit (ok : unit -> Prop) : shuts need ok quit.
Proof.
  intros st. unfold quit, call.
  destruct (driver_quit env (world st)) as [w r]; simpl.
  exists [EQuit]. split; [reflexivity|]. intros _ _ _ _. exists [], []. auto.
Qed.

Lemma shuts_unneeded {A} (ok : A -> Prop) (c : M A) :
  runs (fun _ => True) (fun _ => Qpre) c ->
  (forall evs, forallb Qpre evs = true -> ~ need evs) ->
  shuts need ok c.
Proof.
  intros Hc Hno st. destruct (Hc st I) as (evs & E & HQ & _).
  exists evs. split; [exact E|]. intros a _ _ Hneed. destruct (Hno evs HQ Hneed).
Qed.

End Shuts.

Section Closing.
Context {env : Env}.

#[local] Arguments run_approved : simpl never.
#[local] Arguments open_and_plan : simpl never.

Lemma always_after (evs1 evs2 : list (event (Element env))) :
  forallb any_event evs1 = true -> always (evs1 ++ evs2) -> always evs2.
Proof. intros _ _. exact I. Qed.

Lemma chrome_after (evs1 evs2 : list (event (Element env))) :
  forallb no_chrome evs1 = true -> In EChrome (evs1 ++ evs2) -> In EChrome evs2.
Proof.
  intros H Hin. apply in_app_or in Hin. destruct Hin as [Hin|Hin]; [|exact Hin].
  rewrite forallb_forall in H. specialize (H _ Hin). discriminate.
Qed.

Lemma no_chrome_not_started (evs : list (event (Element env))) :
  forallb no_chrome evs = true -> ~ In EChrome evs.
Proof.
  intros H Hin. rewrite forallb_forall in H. specialize (H _ Hin). discriminate.
Qed.

Lemma shuts_always (need : list (event (Element env)) -> Prop) {A}
    (ok : A -> Prop) (c : M A) :
  shuts always ok c -> shuts need ok c.
Proof.
  intros Hc st. destruct (Hc st) as (evs & E & H). exists evs.
  split; [exact E|]. intros a Ha Hok _. exact (H a Ha Hok I).
Qed.

Lemma run_approved_shuts plan : shuts always (fun _ => True) (run_approved plan).
Proof.
  pose proof (monotone_const (env := env) any_event) as Hmono.
  unfold run_approved.
  apply (shuts_bind always any_event always_after);
    [apply runs_emit; reflexivity | intros _].
  apply (shuts_bind always any_event always_after);
    [apply (adds_runs _ _ any_event); [reflexivity | apply execute_plan_adds_any]
    | intros success].
  apply (shuts_bind always any_event always_after);
    [destruct success; apply runs_emit; reflexivity | intros _].
  apply (shuts_bind always any_event always_after);
    [apply runs_emit; reflexivity | intros _].
  apply shuts_quit_then. intros _. apply adds_emit. reflexivity.
Qed.

Lemma review_and_run_shuts plan :
  shuts always (fun _ => True) (review_and_run plan).
Proof.
  pose proof (monotone_const (env := env) any_event) as Hmono.
  rewrite review_and_run_approves.
  do 3 (apply (shuts_bind always any_event always_after);
        [apply runs_emit; reflexivity | intros _]).
  apply (shuts_bind always any_event always_after);
    [apply runs_get_allowed | intros allowed_now].
  apply (shuts_bind always any_event always_after);
    [apply runs_pure | intros [d|]].
  - do 2 (apply (shuts_bind always any_event always_after);
          [apply runs_emit; reflexivity | intros _]).
    apply shuts_quit.
  - apply (shuts_bind always any_event always_after);
      [apply runs_input; reflexivity | intros line].
    destruct (negb _); [|apply run_approved_shuts].
    apply (shuts_bind always any_event always_after);
      [apply runs_emit; reflexivity | intros _].
    apply shuts_quit.
Qed.

Lemma open_and_plan_shuts start_url :
  shuts always (eq None) (open_and_plan start_url).
Proof.
  pose proof (monotone_const (env := env) any_event) as Hmono.
  unfold open_and_plan. cbv zeta.
  do 5 (apply (shuts_bind always any_event always_after);
        [runs_steps ltac:(intros; reflexivity) | intros _]).
  apply (shuts_bind always any_event always_after);
    [runs_steps ltac:(intros; reflexivity) | intros page_text].
  apply (shuts_bind always any_event always_after);
    [runs_steps ltac:(intros; reflexivity) | intros line].
  destruct (String.eqb _ "").
  - apply (shuts_bind always any_event always_after);
      [apply runs_emit; reflexivity | intros _].
    apply shuts_quit_then. intros _. apply adds_ret.
  - apply (shuts_bind always any_event always_after);
      [apply runs_emit; reflexivity | intros _].
    apply (shuts_try always any_event always_after).
    + unfold ask_openai_for_plan. runs_steps ltac:(intros; reflexivity).
    + intros st a. unfold bind.
      destruct (ask_openai_for_plan _ _ _ st) as [st1 [plan|e]]; simpl;
        intros Ha Hnone; subst a; discriminate.
    + intros e.
      apply (shuts_bind always any_event always_after);
        [apply runs_emit; reflexivity | intros _].
      apply shuts_quit_then. intros _. apply adds_ret.
Qed.

Lemma obtain_plan_shuts : shuts (In EChrome) (eq None) (obtain_plan (env := env)).
Proof.
  pose proof (monotone_const (env := env) no_chrome) as Hmono.
  rewrite obtain_plan_opens.
  do 2 (apply (shuts_bind (In EChrome) no_chrome chrome_after);
        [apply runs_emit; reflexivity | intros _]).
  apply (shuts_bind (In EChrome) no_chrome chrome_after);
    [apply runs_input; reflexivity | intros line].
  apply (shuts_bind (In EChrome) no_chrome chrome_after);
    [apply runs_pure | intros valid].
  destruct (negb valid).
  - apply (shuts_unneeded (In EChrome) no_chrome);
      [runs_steps ltac:(intros; reflexivity) | apply no_chrome_not_started].
  - apply (shuts_bind (In EChrome) no_chrome chrome_after).
    + unfold enter_session. cbv zeta. runs_steps ltac:(intros; auto; reflexivity).
    + intros go_on. destruct (negb go_on).
      * apply (shuts_unneeded (In EChrome) no_chrome);
          [apply runs_ret | apply no_chrome_not_started].
      * apply shuts_always, open_and_plan_shuts.
Qed.

(** X19.  [main] closes the browser it opened: in every run that starts
    the browser and returns, the browser is closed before the return,
    and nothing but printing comes after the closing -- whether the task
    was empty, the planner failed, the plan was vetoed, declined,
    carried out or stopped at a failing step. *)
Theorem main_closes_the_browser_it_opened (st : @state env) :
  exists evs,
    trace (fst (main st)) = trace st ++ evs
    /\ (snd (main st) = Ok tt -> In EChrome evs -> closed_after evs).
Proof.
  unfold main, bind.
  destruct (obtain_plan_shuts st) as (evs1 & E1 & H1).
  destruct (obtain_plan st) as [st1 [[plan|]|e]]; simpl in *.
  - destruct (review_and_run_shuts plan st1) as (evs2 & E2 & H2).
    exists (evs1 ++ evs2). split; [rewrite E2, E1, app_assoc; reflexivity|].
    intros Hret _. apply closed_after_app, (H2 tt Hret); exact I.
  - exists evs1. split; [exact E1|].
    intros _ Hin. exact (H1 None eq_refl eq_refl Hin).
  - exists evs1. split; [exact E1|]. intros; discriminate.
Qed.

End Closing.
